(** * Request argument resolution of @loopback/rest and the authentication
      metadata provider of @loopback/authentication

    A shallow embedding of [parseOperationArgs] and its helpers
    ([getContentType], [loadRequestBodyIfNeeded], [hasArgumentsFromBody],
    [buildOperationArguments]) over an explicit heap of JavaScript objects,
    together with a model of the dependency-injection lookup exercised by
    the [AuthMetadataProvider] unit test.

    Conventions of the embedding.
    - A JavaScript value is a [JsVal]; numbers are IEEE binary64 floats.
    - Strings are sequences of 8-bit characters: the development covers
      ASCII text, on which [toLowerCase] and indexing agree with
      JavaScript.
    - Objects that the code receives by reference (the operation spec, the
      request, the path parameter map, the argument array) live in a heap
      and are named by locations; every read, write and allocation is
      recorded in a trace.
    - A thrown exception and a rejected promise are both the [Throw]
      outcome of a computation; a returned value and a resolved promise are
      [Normal]. *)

From Stdlib Require Import ZArith String Ascii List Floats DecimalString.
From stdpp Require Import base gmap strings list fin_maps.

(** ** JavaScript values *)

#[warnings="-register-all"]
Inductive JsVal : Type :=
| JUndefined
| JNull
| JBool (b : bool)
| JNumber (x : float)
| JString (s : string)
| JArray (elems : list JsVal)
| JObject (props : gmap string JsVal).

(** [MaybeBody = any | undefined]. *)
Definition MaybeBody : Type := JsVal.

(** ToBoolean, as used by the conditional [body ? ... : ...]. *)
Definition truthy (v : JsVal) : bool :=
  match v with
  | JUndefined | JNull => false
  | JBool b => b
  | JNumber x => negb (PrimFloat.is_zero x || PrimFloat.is_nan x)
  | JString s => negb (String.eqb s "")
  | JArray _ | JObject _ => true
  end.

(** ToBoolean of a [string | undefined]. *)
Definition truthy_string (o : option string) : bool :=
  match o with
  | Some s => negb (String.eqb s "")
  | None => false
  end.

(** The canonical array index denoted by a property name, if any:
    the decimal numeral of a natural number without leading zeros. *)
Definition array_index (key : string) : option nat :=
  match NilEmpty.uint_of_string key with
  | Some u =>
      let n := Nat.of_uint u in
      if String.eqb (NilEmpty.string_of_uint (Nat.to_uint n)) key
      then Some n else None
  | None => None
  end.

Definition number_of_nat (n : nat) : JsVal :=
  JNumber (PrimFloat.of_uint63 (Uint63.of_Z (Z.of_nat n))).

Definition or_undefined (o : option JsVal) : JsVal :=
  match o with
  | Some v => v
  | None => JUndefined
  end.

(** Property read [v[key]] on a value that is not [undefined] or [null]:
    own properties of objects, elements and [length] of arrays and
    strings.  Properties inherited from the built-in prototypes (methods)
    are outside the model and read as [undefined]. *)
Definition get_property (v : JsVal) (key : string) : JsVal :=
  match v with
  | JObject props => or_undefined (props !! key)
  | JArray elems =>
      if String.eqb key "length" then number_of_nat (length elems)
      else match array_index key with
           | Some i => or_undefined (elems !! i)
           | None => JUndefined
           end
  | JString s =>
      if String.eqb key "length" then number_of_nat (String.length s)
      else match array_index key with
           | Some i =>
               match String.get i s with
               | Some c => JString (String c EmptyString)
               | None => JUndefined
               end
           | None => JUndefined
           end
  | _ => JUndefined
  end.

(** ** Strings *)

(** [String.prototype.toLowerCase] on ASCII text. *)
Definition lower_ascii (c : ascii) : ascii :=
  let n := nat_of_ascii c in
  if (65 <=? n)%nat && (n <=? 90)%nat then ascii_of_nat (n + 32) else c.

Fixpoint toLowerCase (s : string) : string :=
  match s with
  | EmptyString => EmptyString
  | String c rest => String (lower_ascii c) (toLowerCase rest)
  end.

(** [pat] occurs in [s] as a contiguous substring. *)
Fixpoint includes (pat s : string) : bool :=
  String.prefix pat s ||
  match s with
  | EmptyString => false
  | String _ rest => includes pat rest
  end.

(** The regular expression test [/json/.test(s)]. *)
Definition regex_json_test (s : string) : bool := includes "json" s.

Definition dquote : string := String (ascii_of_nat 34) EmptyString.

(** ** Errors *)

Record JsError : Type := mkJsError {
  err_name : string;
  err_message : string;
  err_statusCode : option Z
}.

(** [new Error(msg)]. *)
Definition Error_ (msg : string) : JsError :=
  mkJsError "Error" msg None.

(** [new HttpErrors.UnsupportedMediaType(msg)]. *)
Definition UnsupportedMediaType (msg : string) : JsError :=
  mkJsError "UnsupportedMediaTypeError" msg (Some 415%Z).

(** [new HttpErrors.NotImplemented(msg)]. *)
Definition NotImplemented (msg : string) : JsError :=
  mkJsError "NotImplementedError" msg (Some 501%Z).

(** The error of dereferencing something that is not an object of the
    expected shape. *)
Definition TypeError (msg : string) : JsError :=
  mkJsError "TypeError" msg None.

(** The assignment [err.statusCode = code]. *)
Definition set_statusCode (code : Z) (err : JsError) : JsError :=
  mkJsError (err_name err) (err_message err) (Some code).

Inductive Completion (A : Type) : Type :=
| Normal (a : A)
| Throw (e : JsError).
Arguments Normal {A} a.
Arguments Throw {A} e.

(** ** OpenAPI operation specs *)

(** A [ParameterObject]: its [name], its [in] and the remaining
    properties (type, format, required, ...), which only [deserialize]
    looks at. *)
Record ParameterObject : Type := mkParameter {
  param_name : string;
  param_in : string;
  param_extra : gmap string JsVal
}.

(** An entry of [operationSpec.parameters]: [PRef] is an object on which
    ['$ref' in paramSpec] holds, [PParam] one on which it does not. *)
Inductive ParamSpec : Type :=
| PRef (ref : string)
| PParam (p : ParameterObject).

(** An [OperationObject]; [parameters] is optional. *)
Record OperationObject : Type := mkOperation {
  op_parameters : option (list ParamSpec)
}.

(** ** Requests *)

(** A value of [IncomingHttpHeaders]: [string | string[]]; an absent
    header is [undefined]. *)
Inductive HeaderValue : Type :=
| HSingle (s : string)
| HMulti (l : list string).

Definition header_to_js (o : option HeaderValue) : JsVal :=
  match o with
  | Some (HSingle s) => JString s
  | Some (HMulti l) => JArray (JString <$> l)
  | None => JUndefined
  end.

(** A [ParsedRequest]: the parsed query, the headers, and the bytes of
    the request stream. *)
Record ParsedRequest : Type := mkRequest {
  req_query : gmap string JsVal;
  req_headers : gmap string HeaderValue;
  req_payload : string
}.

(** ** The heap *)

Abbreviation loc := positive.

Inductive Cell : Type :=
| COperation (o : OperationObject)
| CRequest (r : ParsedRequest)
| CPathParams (p : gmap string JsVal)
| CArgs (a : list JsVal).

Inductive Event : Type :=
| EvRead (l : loc)
| EvWrite (l : loc)
| EvAlloc (l : loc)
| EvParseJsonBody (l : loc).

Record State : Type := mkState {
  heap : gmap loc Cell;
  trace : list Event
}.

(** [ResolvedRoute]: references to the operation spec and to the path
    parameter values. *)
Record ResolvedRoute : Type := mkRoute {
  route_spec : loc;
  route_pathParams : loc
}.

(** ** The monad of heap computations that may throw *)

Definition M (A : Type) : Type := State -> Completion A * State.

Definition ret {A} (a : A) : M A := fun st => (Normal a, st).

Definition throw {A} (e : JsError) : M A := fun st => (Throw e, st).

Definition bind {A B} (m : M A) (k : A -> M B) : M B :=
  fun st =>
    match m st with
    | (Normal a, st') => k a st'
    | (Throw e, st') => (Throw e, st')
    end.

(** [m.catch(handler)]. *)
Definition catch {A} (m : M A) (handler : JsError -> M A) : M A :=
  fun st =>
    match m st with
    | (Normal a, st') => (Normal a, st')
    | (Throw e, st') => handler e st'
    end.

Definition lift {A} (c : Completion A) : M A := fun st => (c, st).

Notation "'let*' x ':=' m 'in' k" := (bind m (fun x => k))
  (at level 10, x name, m at level 100, k at level 200,
   format "'[v' 'let*'  x  ':='  m  'in'  '/' k ']'").

Definition emit (ev : Event) : M unit :=
  fun st => (Normal tt, mkState (heap st) (trace st ++ [ev])).

Definition deref (l : loc) : M Cell :=
  fun st =>
    match heap st !! l with
    | Some c => (Normal c, mkState (heap st) (trace st ++ [EvRead l]))
    | None => (Throw (TypeError "dangling reference"), st)
    end.

Definition alloc (c : Cell) : M loc :=
  fun st =>
    let l := fresh (dom (heap st)) in
    (Normal l, mkState (<[l := c]> (heap st)) (trace st ++ [EvAlloc l])).

Definition store (l : loc) (c : Cell) : M unit :=
  fun st =>
    (Normal tt, mkState (<[l := c]> (heap st)) (trace st ++ [EvWrite l])).

Definition get_operation (l : loc) : M OperationObject :=
  let* c := deref l in
  match c with
  | COperation o => ret o
  | _ => throw (TypeError "not an operation spec")
  end.

Definition get_request (l : loc) : M ParsedRequest :=
  let* c := deref l in
  match c with
  | CRequest r => ret r
  | _ => throw (TypeError "not a request")
  end.

Definition get_pathParams (l : loc) : M (gmap string JsVal) :=
  let* c := deref l in
  match c with
  | CPathParams p => ret p
  | _ => throw (TypeError "not a path parameter map")
  end.

(** [args.push(v)]. *)
Definition push (args : loc) (v : JsVal) : M unit :=
  let* c := deref args in
  match c with
  | CArgs a => store args (CArgs (a ++ [v]))
  | _ => throw (TypeError "push is not a function")
  end.

(** ** The functions of the parser module *)

(** The error of the default case of the switch on [spec.in]. *)
Definition NotImplemented_in (source : string) : JsError :=
  NotImplemented
    ("Parameters with " +:+ dquote +:+ "in: " +:+ source +:+ dquote
                        +:+ " are not supported yet.").

Definition RefNotSupported : JsError :=
  Error_ "$ref parameters are not supported yet.".

Section Parser.

(** [deserialize] is imported from the deserializer module, whose text is
    not part of this development: it is any function of the raw value and
    the parameter spec that returns a value or throws. *)
Variable deserialize : JsVal -> ParameterObject -> Completion JsVal.

(** [parseJsonBody] is the promisified [body/json] of the npm registry:
    any function of the request that resolves with the parsed body or
    rejects. *)
Variable parseJsonBody : ParsedRequest -> Completion MaybeBody.

(** The call [parseJsonBody(request)] consumes the request stream. *)
Definition callParseJsonBody (request : loc) : M MaybeBody :=
  let* r := get_request request in
  let* _ := emit (EvParseJsonBody request) in
  lift (parseJsonBody r).

(** [getContentType(req)]: the value of the content-type header, the
    first one when the header is an array. *)
Definition getContentType (req : loc) : M (option string) :=
  let* r := get_request req in
  ret (match req_headers r !! "content-type" with
       | Some (HSingle val) => Some val
       | Some (HMulti val) => head val
       | None => None
       end).

(** The loop of [hasArgumentsFromBody] over the parameter entries. *)
Fixpoint hasBodySource (params : list ParamSpec) : bool :=
  match params with
  | [] => false
  | PRef _ :: rest => hasBodySource rest
  | PParam p :: rest =>
      let source := param_in p in
      if String.eqb source "formData" || String.eqb source "body"
      then true
      else hasBodySource rest
  end.

(** [hasArgumentsFromBody(operationSpec)].  The source reads
    [operationSpec.parameters] up to three times with nothing written in
    between; the embedding reads the object once. *)
Definition hasArgumentsFromBody (operationSpec : loc) : M bool :=
  let* op := get_operation operationSpec in
  match op_parameters op with
  | None => ret false
  | Some params =>
      if (length params =? 0)%nat then ret false
      else ret (hasBodySource params)
  end.

(** [loadRequestBodyIfNeeded(operationSpec, request)]. *)
Definition loadRequestBodyIfNeeded (operationSpec request : loc)
  : M MaybeBody :=
  let* needed := hasArgumentsFromBody operationSpec in
  if negb needed then ret JUndefined
  else
    let* contentType := getContentType request in
    if truthy_string contentType
       && negb (regex_json_test (default EmptyString contentType))
    then
      let err := UnsupportedMediaType
        ("Content-type " +:+ default EmptyString contentType
                         +:+ " is not supported.") in
      throw err
    else
      catch (callParseJsonBody request)
            (fun err => throw (set_statusCode 400 err)).

(** The body of the loop of [buildOperationArguments] on one entry. *)
Definition buildArgument (request pathParams : loc) (body : MaybeBody)
    (args : loc) (paramSpec : ParamSpec) : M unit :=
  match paramSpec with
  | PRef _ => throw RefNotSupported
  | PParam spec =>
      let addArg (val : JsVal) : M unit :=
        let* v := lift (deserialize val spec) in
        push args v in
      let source := param_in spec in
      if String.eqb source "query" then
        let* r := get_request request in
        addArg (or_undefined (req_query r !! param_name spec))
      else if String.eqb source "path" then
        let* p := get_pathParams pathParams in
        addArg (or_undefined (p !! param_name spec))
      else if String.eqb source "header" then
        let* r := get_request request in
        addArg (header_to_js (req_headers r !! toLowerCase (param_name spec)))
      else if String.eqb source "formData" then
        addArg (if truthy body then get_property body (param_name spec)
                else JUndefined)
      else if String.eqb source "body" then
        addArg body
      else
        throw (NotImplemented_in source)
  end.

Fixpoint buildArguments (request pathParams : loc) (body : MaybeBody)
    (args : loc) (params : list ParamSpec) : M unit :=
  match params with
  | [] => ret tt
  | paramSpec :: rest =>
      let* _ := buildArgument request pathParams body args paramSpec in
      buildArguments request pathParams body args rest
  end.

(** [buildOperationArguments(operationSpec, request, pathParams, body)]:
    the result is the reference to the new array [args]. *)
Definition buildOperationArguments
    (operationSpec request pathParams : loc) (body : MaybeBody) : M loc :=
  let* args := alloc (CArgs []) in
  let* op := get_operation operationSpec in
  let* _ := buildArguments request pathParams body args
              (default [] (op_parameters op)) in
  ret args.

(** [parseOperationArgs(request, route)]. *)
Definition parseOperationArgs (request : loc) (route : ResolvedRoute)
  : M loc :=
  let operationSpec := route_spec route in
  let pathParams := route_pathParams route in
  let* body := loadRequestBodyIfNeeded operationSpec request in
  buildOperationArguments operationSpec request pathParams body.

End Parser.

(** ** Pure readings of the code, used to state its properties *)

(** The parameter entries the loops run over:
    [operationSpec.parameters || []]. *)
Definition parameters_of (op : OperationObject) : list ParamSpec :=
  default [] (op_parameters op).

(** The five locations that the switch handles. *)
Definition supported_in (source : string) : bool :=
  String.eqb source "query" || String.eqb source "path"
  || String.eqb source "header" || String.eqb source "formData"
  || String.eqb source "body".

(** An entry is accepted when it is not a reference and its [in] is one
    of the five locations. *)
Definition accepted (ps : ParamSpec) : bool :=
  match ps with
  | PRef _ => false
  | PParam p => supported_in (param_in p)
  end.

(** An entry that takes its value from the request body. *)
Definition from_body (ps : ParamSpec) : Prop :=
  exists p, ps = PParam p /\
            (param_in p = "formData" \/ param_in p = "body").

(** The value of the content-type header as [getContentType] reads it. *)
Definition content_type (r : ParsedRequest) : option string :=
  match req_headers r !! "content-type" with
  | Some (HSingle val) => Some val
  | Some (HMulti val) => head val
  | None => None
  end.

(** The guard of the 415 rejection. *)
Definition media_type_refused (r : ParsedRequest) : bool :=
  truthy_string (content_type r)
  && negb (regex_json_test (default EmptyString (content_type r))).

(** The value a parameter is said to draw, by the location named in its
    [in]; [None] when the location is none of the five. *)
Definition drawn_value (r : ParsedRequest) (pathParams : gmap string JsVal)
    (body : MaybeBody) (p : ParameterObject) : option JsVal :=
  let source := param_in p in
  if String.eqb source "query" then
    Some (or_undefined (req_query r !! param_name p))
  else if String.eqb source "path" then
    Some (or_undefined (pathParams !! param_name p))
  else if String.eqb source "header" then
    Some (header_to_js (req_headers r !! toLowerCase (param_name p)))
  else if String.eqb source "formData" then
    Some (if truthy body then get_property body (param_name p)
          else JUndefined)
  else if String.eqb source "body" then
    Some body
  else None.

(** The inputs of a call, as found in the heap. *)
Record inputs_at (st : State) (operationSpec request pathParams : loc)
    (op : OperationObject) (r : ParsedRequest) (pp : gmap string JsVal)
  : Prop := mkInputs {
  at_spec : heap st !! operationSpec = Some (COperation op);
  at_request : heap st !! request = Some (CRequest r);
  at_pathParams : heap st !! pathParams = Some (CPathParams pp)
}.

(** ** Footprints *)

(** The events a run of [buildOperationArguments] may add to the trace
    when [args] is its argument array: reads, and writes to [args]. *)
Definition build_event (args : loc) (ev : Event) : Prop :=
  match ev with
  | EvRead _ => True
  | EvWrite l => l = args
  | EvAlloc _ => False
  | EvParseJsonBody _ => False
  end.

(** [st'] comes from [st] by reads and by writes of arrays to [args]. *)
Record touches_only (args : loc) (st st' : State) : Prop := mkTouches {
  touches_frame : forall l, l <> args -> heap st' !! l = heap st !! l;
  touches_array :
    forall a, heap st !! args = Some (CArgs a) ->
              exists a', heap st' !! args = Some (CArgs a');
  touches_trace :
    exists tr, trace st' = trace st ++ tr /\ Forall (build_event args) tr
}.

(** A computation whose every run stays within that footprint. *)
Definition confined {A} (args : loc) (m : M A) : Prop :=
  forall st, touches_only args st (m st).2.

(** The outcome of a run: the array behind a returned reference, or the
    error thrown. *)
Definition outcome (run : Completion loc * State)
  : JsError + option Cell :=
  match run.1 with
  | Normal l => inr (heap run.2 !! l)
  | Throw e => inl e
  end.

(** The events a run has added to the trace of [st]. *)
Definition added_events (st st' : State) : list Event :=
  drop (length (trace st)) (trace st').

(** ** What a run computes, as pure functions of the inputs *)

Section PureReadings.

Variable deserialize : JsVal -> ParameterObject -> Completion JsVal.
Variable parseJsonBody : ParsedRequest -> Completion MaybeBody.

(** The contents of the argument array after the loop has run over
    [params] starting from [acc], and the error that stopped it, if
    any. *)
Fixpoint collect (r : ParsedRequest) (pp : gmap string JsVal)
    (body : MaybeBody) (params : list ParamSpec) (acc : list JsVal)
  : option JsError * list JsVal :=
  match params with
  | [] => (None, acc)
  | PRef _ :: _ => (Some RefNotSupported, acc)
  | PParam p :: rest =>
      match drawn_value r pp body p with
      | None => (Some (NotImplemented_in (param_in p)), acc)
      | Some raw =>
          match deserialize raw p with
          | Throw e => (Some e, acc)
          | Normal v => collect r pp body rest (acc ++ [v])
          end
      end
  end.

(** Whether the operation takes arguments from the body. *)
Definition needs_body (op : OperationObject) : bool :=
  hasBodySource (parameters_of op).

(** The promise [loadRequestBodyIfNeeded] returns. *)
Definition load_outcome (op : OperationObject) (r : ParsedRequest)
  : Completion MaybeBody :=
  if negb (needs_body op) then Normal JUndefined
  else if media_type_refused r then
    Throw (UnsupportedMediaType
             ("Content-type " +:+ default EmptyString (content_type r)
                              +:+ " is not supported."))
  else match parseJsonBody r with
       | Normal b => Normal b
       | Throw e => Throw (set_statusCode 400 e)
       end.

(** The events [loadRequestBodyIfNeeded] adds to the trace. *)
Definition load_events (operationSpec request : loc)
    (op : OperationObject) (r : ParsedRequest) : list Event :=
  EvRead operationSpec ::
  (if negb (needs_body op) then []
   else EvRead request ::
        (if media_type_refused r then []
         else [EvRead request; EvParseJsonBody request])).

(** [v] is the deserialized value that the entry [ps] draws. *)
Definition deserialized_from (r : ParsedRequest) (pp : gmap string JsVal)
    (body : MaybeBody) (ps : ParamSpec) (v : JsVal) : Prop :=
  exists p raw, ps = PParam p /\ drawn_value r pp body p = Some raw /\
                deserialize raw p = Normal v.

End PureReadings.

(** The first entry that stops the loop, by itself: a reference, or an
    [in] outside the five locations. *)
Fixpoint first_rejection (params : list ParamSpec) : option JsError :=
  match params with
  | [] => None
  | PRef _ :: _ => Some RefNotSupported
  | PParam p :: rest =>
      if supported_in (param_in p) then first_rejection rest
      else Some (NotImplemented_in (param_in p))
  end.

(** The request carries a content type that the 415 guard rejects: a
    non-empty string in which [json] does not occur. *)
Definition refuses_media_type (r : ParsedRequest) : Prop :=
  exists ct, content_type r = Some ct /\ ct <> EmptyString /\
             regex_json_test ct = false.

(** ** The authentication metadata provider *)

Module Auth.

(** Modelled from the spec: the [authenticate] decorator, the function
    [getAuthenticateMetadata], the class [AuthMetadataProvider] and the
    dependency-injection [Context] are not among the sources at hand, only
    their unit test is.  The spec describes the provider as: given a
    class/method pair, return decorator metadata via a DI container.  The
    model follows that sentence and the calls the test makes. *)

(** [AuthenticationMetadata]: the strategy name and the options given to
    the decorator. *)
Record AuthenticationMetadata : Type := mkMetadata {
  strategy : string;
  options : gmap string JsVal
}.

(** Modelled from the spec: the decorator metadata kept per controller
    class and method name. *)
Abbreviation MetadataStore :=
  (gmap (string * string) AuthenticationMetadata).

(** Modelled from the spec: [@authenticate(strategyName, options)] on the
    method [methodName] of [controllerClass] records the metadata. *)
Definition authenticate (strategyName : string)
    (opts : gmap string JsVal) (controllerClass methodName : string)
    (store : MetadataStore) : MetadataStore :=
  <[(controllerClass, methodName) := mkMetadata strategyName opts]> store.

(** Modelled from the spec: the metadata recorded for a method, or
    [undefined]. *)
Definition getAuthenticateMetadata (controllerClass methodName : string)
    (store : MetadataStore) : option AuthenticationMetadata :=
  store !! (controllerClass, methodName).

(** Modelled from the spec: the binding keys of [CoreBindings] that the
    test uses. *)
Inductive BindingKey : Type :=
| CONTROLLER_CLASS
| CONTROLLER_METHOD_NAME
| CONTROLLER_METHOD_META.

(** Values a binding can resolve to: a class, a string, or the
    [AuthenticationMetadata | undefined] of a provider. *)
Inductive BoundValue : Type :=
| VClass (controllerClass : string)
| VString (s : string)
| VMetadata (m : option AuthenticationMetadata).

Inductive ProviderClass : Type :=
| AuthMetadataProvider.

(** [binding.to(value)] and [binding.toProvider(providerClass)]. *)
Inductive Binding : Type :=
| To (v : BoundValue)
| ToProvider (p : ProviderClass).

(** Modelled from the spec: a [Context] maps keys to bindings. *)
Record Context : Type := mkContext {
  controller_class : option Binding;
  controller_method_name : option Binding;
  controller_method_meta : option Binding
}.

Definition empty_context : Context := mkContext None None None.

Definition lookup_binding (ctx : Context) (key : BindingKey)
  : option Binding :=
  match key with
  | CONTROLLER_CLASS => controller_class ctx
  | CONTROLLER_METHOD_NAME => controller_method_name ctx
  | CONTROLLER_METHOD_META => controller_method_meta ctx
  end.

(** [context.bind(key).to(...)] or [.toProvider(...)]. *)
Definition bind_key (key : BindingKey) (b : Binding) (ctx : Context)
  : Context :=
  match key with
  | CONTROLLER_CLASS =>
      mkContext (Some b) (controller_method_name ctx)
                (controller_method_meta ctx)
  | CONTROLLER_METHOD_NAME =>
      mkContext (controller_class ctx) (Some b)
                (controller_method_meta ctx)
  | CONTROLLER_METHOD_META =>
      mkContext (controller_class ctx) (controller_method_name ctx)
                (Some b)
  end.

(** The result of [context.get(key)]: resolved, rejected, or not yet
    settled within the given number of nested resolutions. *)
Inductive Resolution : Type :=
| Resolved (v : BoundValue)
| Rejected (reason : string)
| Pending.

(** Modelled from the spec: [new AuthMetadataProvider(controllerClass,
    methodName).value()]. *)
Definition provider_value (controllerClass methodName : string)
    (store : MetadataStore) : option AuthenticationMetadata :=
  getAuthenticateMetadata controllerClass methodName store.

(** Modelled from the spec: [context.get(key)].  A provider binding is
    resolved by injecting the controller class and the method name from
    the same context into the provider and taking its [value()]. *)
Fixpoint get (fuel : nat) (store : MetadataStore) (ctx : Context)
    (key : BindingKey) : Resolution :=
  match fuel with
  | O => Pending
  | S fuel' =>
      match lookup_binding ctx key with
      | None => Rejected "The key was not bound to any value."
      | Some (To v) => Resolved v
      | Some (ToProvider AuthMetadataProvider) =>
          match get fuel' store ctx CONTROLLER_CLASS with
          | Resolved (VClass controllerClass) =>
              match get fuel' store ctx CONTROLLER_METHOD_NAME with
              | Resolved (VString methodName) =>
                  Resolved (VMetadata
                    (provider_value controllerClass methodName store))
              | Resolved _ => Rejected "The method name is not a string."
              | other => other
              end
          | Resolved _ => Rejected "The controller is not a class."
          | other => other
          end
      end
  end.

End Auth.

(** ** Sample inputs *)

(** A deserializer that returns every raw value as it is. *)
Definition sample_deserialize (val : JsVal) (p : ParameterObject)
  : Completion JsVal := Normal val.

(** A body parser that knows two payloads and rejects the others. *)
Definition sample_parseJsonBody (r : ParsedRequest) : Completion MaybeBody :=
  if String.eqb (req_payload r) "[1]" then Normal (JArray [JNumber 1])
  else if String.eqb (req_payload r) "{}" then Normal (JObject ∅)
  else Throw (mkJsError "SyntaxError" "Unexpected token" None).

Definition sample_param (name source : string) : ParamSpec :=
  PParam (mkParameter name source ∅).

(** One parameter for each of the five locations. *)
Definition sample_parameters : list ParamSpec :=
  [ sample_param "q" "query"; sample_param "id" "path";
    sample_param "X-Token" "header"; sample_param "0" "formData";
    sample_param "data" "body" ].

Definition sample_request (contentType payload : string) : ParsedRequest :=
  mkRequest {[ "q" := JString "rocq" ]}
            {[ "x-token" := HSingle "t";
               "content-type" := HSingle contentType ]}
            payload.

Definition sample_pathParams : gmap string JsVal :=
  {[ "id" := JString "7" ]}.

(** A heap with the operation spec at 1, the request at 2 and the path
    parameters at 3. *)
Definition sample_state (params : option (list ParamSpec))
    (r : ParsedRequest) : State :=
  mkState {[ 1%positive := COperation (mkOperation params);
             2%positive := CRequest r;
             3%positive := CPathParams sample_pathParams ]}
          [].

Definition sample_route : ResolvedRoute := mkRoute 1 3.

Definition sample_args : list JsVal :=
  [ JString "rocq"; JString "7"; JString "t"; JNumber 1;
    JArray [JNumber 1] ].

(** Another heap: the same operation spec at 5, a request with the same
    query and headers at 6, the same path parameters at 7, and an array
    of some earlier call at 1. *)
Definition sample_state_moved (params : option (list ParamSpec))
    (r : ParsedRequest) : State :=
  mkState {[ 1%positive := CArgs [JNull];
             5%positive := COperation (mkOperation params);
             6%positive := CRequest r;
             7%positive := CPathParams sample_pathParams ]}
          [EvAlloc 1%positive].

(** The sample parameters followed by a reference and by a parameter in
    a cookie. *)
Definition sample_parameters_rejected : list ParamSpec :=
  sample_parameters ++ [PRef "#/parameters/limit"; sample_param "sid" "cookie"].

(** The classes, the decorator and the contexts of the unit test. *)
Definition test_options : gmap string JsVal :=
  {[ "option1" := JString "value1"; "option2" := JString "value2" ]}.

Definition test_store : Auth.MetadataStore :=
  Auth.authenticate "my-strategy" test_options "TestController" "whoAmI" ∅.

Definition test_context (controllerClass : string) : Auth.Context :=
  Auth.bind_key Auth.CONTROLLER_METHOD_META
    (Auth.ToProvider Auth.AuthMetadataProvider)
    (Auth.bind_key Auth.CONTROLLER_METHOD_NAME
       (Auth.To (Auth.VString "whoAmI"))
       (Auth.bind_key Auth.CONTROLLER_CLASS
          (Auth.To (Auth.VClass controllerClass))
          Auth.empty_context)).

(** ** The select-dist script of @loopback/build *)

Module SelectDist.

(** A word character of a regular expression without the unicode flag:
    a digit, an ASCII letter or the underscore. *)
Definition is_word_char (c : ascii) : bool :=
  let n := nat_of_ascii c in
  ((48 <=? n)%nat && (n <=? 57)%nat)
  || ((65 <=? n)%nat && (n <=? 90)%nat)
  || (n =? 95)%nat
  || ((97 <=? n)%nat && (n <=? 122)%nat).

Definition starts_with_word (s : string) : bool :=
  match s with
  | String c _ => is_word_char c
  | EmptyString => false
  end.

Fixpoint drop_chars (n : nat) (s : string) : string :=
  match n, s with
  | S n', String _ rest => drop_chars n' rest
  | _, _ => s
  end.

(** The text a replacement string stands for at one match
    (GetSubstitution of the language, for a pattern without capture
    groups): [$$] is a dollar sign, [$&] the matched text, [$`] and [$']
    the text before and after the match; any other dollar sign stands
    for itself. *)
Fixpoint getSubstitution (matched before after replacement : string)
  : string :=
  match replacement with
  | EmptyString => EmptyString
  | String c rest =>
      if Ascii.eqb c "$" then
        match rest with
        | String d rest' =>
            if Ascii.eqb d "$" then
              String "$" (getSubstitution matched before after rest')
            else if Ascii.eqb d "&" then
              matched +:+ getSubstitution matched before after rest'
            else if Ascii.eqb d "`" then
              before +:+ getSubstitution matched before after rest'
            else if Ascii.eqb d "'" then
              after +:+ getSubstitution matched before after rest'
            else String c (getSubstitution matched before after rest)
        | EmptyString => String c EmptyString
        end
      else String c (getSubstitution matched before after rest)
  end.

(** [/\bDIST\b/] matches at the start of [s], where [prev_word] tells
    whether the character before [s] is a word character. *)
Definition match_here (prev_word : bool) (s : string) : bool :=
  negb prev_word && String.prefix "DIST" s
  && negb (starts_with_word (drop_chars 4 s)).

(** The scan of [a.replace(/\bDIST\b/g, replacement)] from a position of
    [a]: [before] is the text of [a] already passed, [skip] the number
    of characters of the last match still to pass. *)
Fixpoint replace_from (replacement before : string) (prev_word : bool)
    (skip : nat) (s : string) : string :=
  match s with
  | EmptyString => EmptyString
  | String c rest =>
      let before' := before +:+ String c EmptyString in
      match skip with
      | S skip' =>
          replace_from replacement before' (is_word_char c) skip' rest
      | O =>
          if match_here prev_word s then
            getSubstitution "DIST" before (drop_chars 4 s) replacement
            +:+ replace_from replacement before' (is_word_char c) 3 rest
          else
            String c
              (replace_from replacement before' (is_word_char c) 0 rest)
      end
  end.

(** [a.replace(/\bDIST\b/g, replacement)]. *)
Definition replace_DIST (replacement a : string) : string :=
  replace_from replacement EmptyString false 0 a.

Section Run.

(** The result of [utils.runShell], whatever it is. *)
Variable Result : Type.

(** [utils.getDistribution()] and [utils.runShell] come from the utils
    module, whose text is not part of this development: the first is the
    string it returns, the second any function of the command, the
    arguments and the options.  The options object holds [dryRun] and
    nothing else, and is represented by that value. *)
Variable getDistribution : string.
Variable runShell : option string -> list string -> JsVal -> Result.

(** [run(argv, dryRun)]. *)
Definition run (argv : list string) (dryRun : JsVal) : Result :=
  let dist := getDistribution in
  let args := map (fun a => replace_DIST dist a) (drop 2 argv) in
  let command := head args in
  let args := tail args in
  runShell command args dryRun.

End Run.

(** A replacement string without the character [$], which is the one it
    treats specially. *)
Definition plain (replacement : string) : Prop :=
  includes "$" replacement = false.

(** Whether the character before the end of [s] is a word character,
    [prev_word] telling it for the character before [s]. *)
Fixpoint word_before_end (prev_word : bool) (s : string) : bool :=
  match s with
  | EmptyString => prev_word
  | String c rest => word_before_end (is_word_char c) rest
  end.

(** The last character of [s] is a word character. *)
Definition ends_with_word (s : string) : bool := word_before_end false s.

(** Every character of [s] is a word character. *)
Fixpoint all_word (s : string) : bool :=
  match s with
  | EmptyString => true
  | String c rest => is_word_char c && all_word rest
  end.

End SelectDist.

(** A shell that records how it was called. *)
Definition sample_runShell (command : option string) (args : list string)
    (options : JsVal) : option string * list string * JsVal :=
  (command, args, options).

(** The number of calls of the body parser in a trace. *)
Fixpoint count_parse (tr : list Event) : nat :=
  match tr with
  | [] => 0
  | EvParseJsonBody _ :: rest => S (count_parse rest)
  | _ :: rest => count_parse rest
  end.

(** A request whose content-type header is an array of values. *)
Definition sample_request_values (values : list string) (payload : string)
  : ParsedRequest :=
  mkRequest ∅ {[ "content-type" := HMulti values ]} payload.

(** Three parameters, none of which draws from the body. *)
Definition sample_parameters_no_body : list ParamSpec :=
  [ sample_param "q" "query"; sample_param "id" "path";
    sample_param "X-Token" "header" ].

(** A deserializer that throws when the value of a parameter is missing
    and returns every other raw value as it is. *)
Definition strict_deserialize (val : JsVal) (p : ParameterObject)
  : Completion JsVal :=
  match val with
  | JUndefined =>
      Throw (mkJsError "BadRequestError"
               ("Value is not provided for parameter " +:+ param_name p)
               (Some 400%Z))
  | _ => Normal val
  end.

(** A single query parameter that the sample request does not carry. *)
Definition sample_parameters_missing : list ParamSpec :=
  [ sample_param "page" "query" ].

(** * Properties *)

(** ** The embedding at work *)

Example toLowerCase_header_name : toLowerCase "X-Token" = "x-token".
Proof. reflexivity. Qed.

Example regex_json_test_json : regex_json_test "application/json" = true.
Proof. reflexivity. Qed.

Example regex_json_test_vendor :
  regex_json_test "application/vnd.api+json; charset=utf-8" = true.
Proof. reflexivity. Qed.

Example regex_json_test_upper_case :
  regex_json_test "application/JSON" = false.
Proof. reflexivity. Qed.

Example truthy_falsy_values :
  map truthy [JUndefined; JNull; JBool false; JNumber 0; JNumber (-0);
              JNumber nan; JString EmptyString]
  = [false; false; false; false; false; false; false].
Proof. reflexivity. Qed.

Example truthy_truthy_values :
  map truthy [JBool true; JNumber 1; JString "0"; JArray []; JObject ∅]
  = [true; true; true; true; true].
Proof. reflexivity. Qed.

Example array_index_canonical :
  map array_index ["0"; "12"; "012"; "-1"; "length"; EmptyString]
  = [Some 0; Some 12; None; None; None; None].
Proof. reflexivity. Qed.

Example get_property_of_body :
  get_property (JObject {[ "name" := JString "x" ]}) "name" = JString "x"
  /\ get_property (JObject {[ "name" := JString "x" ]}) "age" = JUndefined
  /\ get_property (JArray [JNull; JBool true]) "1" = JBool true
  /\ get_property (JArray [JNull; JBool true]) "length" = JNumber 2
  /\ get_property (JString "abc") "2" = JString "c".
Proof. repeat split; reflexivity. Qed.

(** The five parameters of the sample spec draw, in order, from the
    query, the path, the headers, the parsed body and the body as a
    whole. *)
Example parseOperationArgs_sample_run :
  outcome (parseOperationArgs sample_deserialize sample_parseJsonBody 2
             sample_route
             (sample_state (Some sample_parameters)
                           (sample_request "application/json" "[1]")))
  = inr (Some (CArgs sample_args)).
Proof. reflexivity. Qed.

Example parseOperationArgs_sample_trace :
  trace (parseOperationArgs sample_deserialize sample_parseJsonBody 2
           sample_route
           (sample_state (Some [sample_param "q" "query";
                                sample_param "data" "body"])
                         (sample_request "application/json" "[1]"))).2
  = [EvRead 1; EvRead 2; EvRead 2; EvParseJsonBody 2; EvAlloc 4; EvRead 1;
     EvRead 2; EvRead 4; EvWrite 4; EvRead 4; EvWrite 4]%positive.
Proof. reflexivity. Qed.

Example parseOperationArgs_sample_parse_failure :
  outcome (parseOperationArgs sample_deserialize sample_parseJsonBody 2
             sample_route
             (sample_state (Some sample_parameters)
                           (sample_request "application/json" "[1")))
  = inl (mkJsError "SyntaxError" "Unexpected token" (Some 400%Z)).
Proof. reflexivity. Qed.

Example parseOperationArgs_sample_without_parameters :
  outcome (parseOperationArgs sample_deserialize sample_parseJsonBody 2
             sample_route
             (sample_state None (sample_request "text/plain" "[1")))
  = inr (Some (CArgs [])).
Proof. reflexivity. Qed.

Example buildOperationArguments_sample_cookie :
  outcome (buildOperationArguments sample_deserialize 1 2 3 JUndefined
             (sample_state (Some [sample_param "sid" "cookie"])
                           (sample_request "application/json" "[1]")))
  = inl (NotImplemented
           ("Parameters with " +:+ dquote +:+ "in: cookie" +:+ dquote
                               +:+ " are not supported yet.")).
Proof. reflexivity. Qed.

(** ** Running the primitives *)

Lemma deref_run st l c :
  heap st !! l = Some c ->
  deref l st = (Normal c, mkState (heap st) (trace st ++ [EvRead l])).
Proof. intros H. unfold deref. by rewrite H. Qed.

Lemma get_operation_run st l op :
  heap st !! l = Some (COperation op) ->
  get_operation l st
  = (Normal op, mkState (heap st) (trace st ++ [EvRead l])).
Proof. intros H. unfold get_operation, bind. by rewrite (deref_run _ _ _ H). Qed.

Lemma get_request_run st l r :
  heap st !! l = Some (CRequest r) ->
  get_request l st
  = (Normal r, mkState (heap st) (trace st ++ [EvRead l])).
Proof. intros H. unfold get_request, bind. by rewrite (deref_run _ _ _ H). Qed.

Lemma get_pathParams_run st l p :
  heap st !! l = Some (CPathParams p) ->
  get_pathParams l st
  = (Normal p, mkState (heap st) (trace st ++ [EvRead l])).
Proof. intros H. unfold get_pathParams, bind. by rewrite (deref_run _ _ _ H). Qed.

Lemma push_run st args a v :
  heap st !! args = Some (CArgs a) ->
  push args v st
  = (Normal tt,
     mkState (<[args := CArgs (a ++ [v])]> (heap st))
             (trace st ++ [EvRead args; EvWrite args])).
Proof.
  intros H. unfold push, bind. rewrite (deref_run _ _ _ H). unfold store. simpl.
  by rewrite <- app_assoc.
Qed.

(** ** Footprint of the argument loop *)

Lemma touches_only_refl args st : touches_only args st st.
Proof.
  split; [done | eauto |].
  exists []. by rewrite app_nil_r.
Qed.

Lemma touches_only_trans args st1 st2 st3 :
  touches_only args st1 st2 -> touches_only args st2 st3 ->
  touches_only args st1 st3.
Proof.
  intros [F1 A1 (t1 & E1 & T1)] [F2 A2 (t2 & E2 & T2)]. split.
  - intros l Hl. rewrite F2, F1; done.
  - intros a Ha. destruct (A1 _ Ha) as [a' Ha']. eauto.
  - exists (t1 ++ t2). rewrite E2, E1, app_assoc. split; [done|].
    by apply Forall_app.
Qed.

Lemma confined_ret {A} args (a : A) : confined args (ret a).
Proof. intros st. apply touches_only_refl. Qed.

Lemma confined_throw {A} args e : confined args (@throw A e).
Proof. intros st. apply touches_only_refl. Qed.

Lemma confined_lift {A} args (c : Completion A) : confined args (lift c).
Proof. intros st. apply touches_only_refl. Qed.

Lemma confined_bind {A B} args (m : M A) (k : A -> M B) :
  confined args m -> (forall a, confined args (k a)) ->
  confined args (bind m k).
Proof.
  intros Hm Hk st. unfold bind. specialize (Hm st).
  destruct (m st) as [[a|e] st'] eqn:E; simpl in *; [|done].
  eapply touches_only_trans; [exact Hm | apply Hk].
Qed.

Lemma confined_deref args l : confined args (deref l).
Proof.
  intros st. unfold deref. destruct (heap st !! l) eqn:E; simpl.
  - split; simpl; [done | eauto |].
    exists [EvRead l]. split; [done|]. by repeat constructor.
  - apply touches_only_refl.
Qed.

Lemma confined_store args a : confined args (store args (CArgs a)).
Proof.
  intros st. unfold store. split; simpl.
  - intros l Hl. by rewrite lookup_insert_ne.
  - intros a0 _. exists a. by rewrite lookup_insert_eq.
  - exists [EvWrite args]. split; [done|]. by repeat constructor.
Qed.

Lemma confined_get_request args l : confined args (get_request l).
Proof.
  apply confined_bind; [apply confined_deref|].
  intros []; first [apply confined_ret | apply confined_throw].
Qed.

Lemma confined_get_pathParams args l : confined args (get_pathParams l).
Proof.
  apply confined_bind; [apply confined_deref|].
  intros []; first [apply confined_ret | apply confined_throw].
Qed.

Lemma confined_get_operation args l : confined args (get_operation l).
Proof.
  apply confined_bind; [apply confined_deref|].
  intros []; first [apply confined_ret | apply confined_throw].
Qed.

Lemma confined_push args v : confined args (push args v).
Proof.
  apply confined_bind; [apply confined_deref|].
  intros []; first [apply confined_store | apply confined_throw].
Qed.

Create HintDb confined.

#[local] Hint Resolve confined_ret confined_throw confined_lift
  confined_get_request confined_get_pathParams confined_get_operation
  confined_push : confined.

Section ParserProperties.

Variable deserialize : JsVal -> ParameterObject -> Completion JsVal.

Lemma confined_buildArgument request pathParams body args paramSpec :
  confined args (buildArgument deserialize request pathParams body args paramSpec).
Proof.
  destruct paramSpec as [ref|spec]; simpl; [apply confined_throw|].
  assert (Hadd : forall val,
    confined args (let* v := lift (deserialize val spec) in push args v)).
  { intros val. apply confined_bind; eauto with confined. }
  repeat case_match; try apply confined_bind; eauto with confined.
Qed.

Lemma confined_buildArguments request pathParams body args params :
  confined args (buildArguments deserialize request pathParams body args params).
Proof.
  induction params as [|paramSpec rest IH]; simpl; [apply confined_ret|].
  apply confined_bind; [apply confined_buildArgument | intros _; exact IH].
Qed.

End ParserProperties.

Section ParserRuns.

Variable deserialize : JsVal -> ParameterObject -> Completion JsVal.

Lemma buildArgument_run request pathParams body args r pp acc st p :
  heap st !! request = Some (CRequest r) ->
  heap st !! pathParams = Some (CPathParams pp) ->
  heap st !! args = Some (CArgs acc) ->
  let run := buildArgument deserialize request pathParams body args
               (PParam p) st in
  match drawn_value r pp body p with
  | None => run.1 = Throw (NotImplemented_in (param_in p))
            /\ heap run.2 = heap st
  | Some raw =>
      match deserialize raw p with
      | Throw e => run.1 = Throw e /\ heap run.2 = heap st
      | Normal v => run.1 = Normal tt
                    /\ heap run.2 = <[args := CArgs (acc ++ [v])]> (heap st)
      end
  end.
Proof.
  intros Hr Hp Ha. unfold buildArgument, drawn_value. simpl.
  repeat case_match; simplify_eq; unfold bind;
    rewrite ?(get_request_run _ _ _ Hr), ?(get_pathParams_run _ _ _ Hp);
    unfold lift, throw; simpl;
    repeat match goal with
    | H : deserialize _ _ = _ |- _ => rewrite H; clear H
    end; simpl; try done;
    erewrite push_run by (simpl; exact Ha); done.
Qed.

Lemma buildArguments_run request pathParams body args r pp params :
  forall st acc,
  heap st !! request = Some (CRequest r) ->
  heap st !! pathParams = Some (CPathParams pp) ->
  heap st !! args = Some (CArgs acc) ->
  let run := buildArguments deserialize request pathParams body args
               params st in
  let res := collect deserialize r pp body params acc in
  run.1 = match res.1 with None => Normal tt | Some e => Throw e end
  /\ heap run.2 = <[args := CArgs res.2]> (heap st).
Proof.
  induction params as [|[ref|p] rest IH]; intros st acc Hr Hp Ha;
    cbn [buildArguments collect].
  - split; [done|]. by rewrite insert_id.
  - split; [done|]. by rewrite insert_id.
  - pose proof (buildArgument_run request pathParams body args r pp acc st p
                  Hr Hp Ha) as Hstep.
    cbv zeta in Hstep. unfold bind.
    destruct (buildArgument deserialize request pathParams body args
                (PParam p) st) as [[[]|e] st1] eqn:E;
      destruct (drawn_value r pp body p) as [raw|];
      try destruct (deserialize raw p) as [v|e'];
      destruct Hstep as [H1 H2]; simpl in H1, H2; simplify_eq; simpl;
      try (split; [done|]; by rewrite H2, insert_id).
    assert (Hne1 : request <> args) by (intros ->; congruence).
    assert (Hne2 : pathParams <> args) by (intros ->; congruence).
    destruct (IH st1 (acc ++ [v])) as [IH1 IH2].
    + by rewrite H2, lookup_insert_ne.
    + by rewrite H2, lookup_insert_ne.
    + by rewrite H2, lookup_insert_eq.
    + split; [exact IH1|]. by rewrite IH2, H2, insert_insert_eq.
Qed.

Lemma fresh_loc_unused (st : State) :
  heap st !! fresh (dom (heap st)) = None.
Proof. apply not_elem_of_dom, is_fresh. Qed.

Lemma buildOperationArguments_run operationSpec request pathParams body
    op r pp st :
  inputs_at st operationSpec request pathParams op r pp ->
  let run := buildOperationArguments deserialize operationSpec request
               pathParams body st in
  let args := fresh (dom (heap st)) in
  let res := collect deserialize r pp body (parameters_of op) [] in
  run.1 = match res.1 with None => Normal args | Some e => Throw e end
  /\ heap run.2 = <[args := CArgs res.2]> (heap st).
Proof.
  intros [Ho Hr Hp]. simpl.
  pose proof (fresh_loc_unused st) as Hfresh.
  set (args := fresh (dom (heap st))) in *.
  unfold buildOperationArguments, bind, alloc. fold args.
  set (st0 := mkState (<[args := CArgs []]> (heap st))
                      (trace st ++ [EvAlloc args])).
  assert (Hkeep : forall l c, heap st !! l = Some c ->
                         <[args := CArgs []]> (heap st) !! l = Some c).
  { intros l c Hl. rewrite lookup_insert_ne; [done|].
    intros Heq. rewrite <- Heq, Hfresh in Hl. discriminate. }
  rewrite (get_operation_run st0 operationSpec op) by (apply Hkeep, Ho).
  set (st1 := mkState _ _).
  destruct (buildArguments_run request pathParams body args r pp
              (parameters_of op) st1 []) as [H1 H2].
  - apply Hkeep, Hr.
  - apply Hkeep, Hp.
  - apply lookup_insert_eq.
  - unfold parameters_of in *.
    destruct (buildArguments _ _ _ _ _ _ st1) as [[[]|e] st2];
      simpl in *; destruct (collect _ _ _ _ _ _).1; simplify_eq;
      (split; [done|]); by rewrite H2, insert_insert_eq.
Qed.

End ParserRuns.

(** ** Facts about the pure readings *)

Lemma hasBodySource_true_iff params :
  hasBodySource params = true <-> Exists from_body params.
Proof.
  induction params as [|[ref|p] rest IH]; simpl.
  - split; [done | by intros ?%Exists_nil].
  - rewrite Exists_cons, IH. split; [by right|].
    intros [(p & ? & _)|?]; [done|assumption].
  - destruct (orb _ _) eqn:E.
    + split; [|done]. intros _. apply Exists_cons_hd. exists p.
      split; [done|]. apply orb_true_iff in E as [E|E];
        apply String.eqb_eq in E; auto.
    + rewrite Exists_cons, IH. split; [by right|].
      intros [(p' & [= <-] & Hin)|?]; [|assumption].
      apply orb_false_iff in E as [E1 E2].
      apply String.eqb_neq in E1, E2. by destruct Hin.
Qed.

Lemma media_type_refused_true_iff r :
  media_type_refused r = true <-> refuses_media_type r.
Proof.
  unfold media_type_refused, refuses_media_type.
  destruct (content_type r) as [ct|]; simpl.
  - rewrite andb_true_iff, !negb_true_iff, String.eqb_neq.
    split; [intros []; eauto | by intros (? & [= <-] & ? & ?)].
  - split; [done | by intros (? & ? & _)].
Qed.

Lemma media_type_refused_false_iff r :
  media_type_refused r = false <-> ~ refuses_media_type r.
Proof.
  rewrite <- media_type_refused_true_iff.
  destruct (media_type_refused r); split; congruence.
Qed.

Lemma drawn_value_is_Some r pp body p :
  supported_in (param_in p) = true -> is_Some (drawn_value r pp body p).
Proof.
  unfold supported_in, drawn_value. cbv zeta.
  repeat case_match; simpl; eauto; discriminate.
Qed.

Lemma drawn_value_None r pp body p :
  supported_in (param_in p) = false -> drawn_value r pp body p = None.
Proof.
  unfold supported_in, drawn_value. cbv zeta.
  repeat case_match; simpl; eauto; discriminate.
Qed.

Lemma first_rejection_Some_iff params :
  is_Some (first_rejection params)
  <-> Exists (fun ps => accepted ps = false) params.
Proof.
  induction params as [|[ref|p] rest IH]; simpl.
  - split; [by intros [? [=]] | by intros ?%Exists_nil].
  - split; [by left | eauto].
  - rewrite Exists_cons. simpl. destruct (supported_in (param_in p)).
    + rewrite IH. split; [by right | by intros [|]].
    + split; [by left | eauto].
Qed.

Lemma first_rejection_None_iff params :
  first_rejection params = None
  <-> Forall (fun ps => accepted ps = true) params.
Proof.
  induction params as [|[ref|p] rest IH]; simpl.
  - split; [constructor | done].
  - split; [done | by intros [[=] _]%Forall_cons].
  - rewrite Forall_cons. simpl. destruct (supported_in (param_in p)).
    + rewrite IH. tauto.
    + split; [done | by intros [[=] _]].
Qed.

Section CollectFacts.

Variable deserialize : JsVal -> ParameterObject -> Completion JsVal.

Lemma collect_rejection r pp body params :
  (forall v p, exists w, deserialize v p = Normal w) ->
  forall acc,
  (collect deserialize r pp body params acc).1 = first_rejection params.
Proof.
  intros Htotal. induction params as [|[ref|p] rest IH]; intros acc; simpl;
    [done | done |].
  destruct (supported_in (param_in p)) eqn:E.
  - destruct (drawn_value_is_Some r pp body p E) as [raw ->].
    destruct (Htotal raw p) as [w ->]. apply IH.
  - by rewrite (drawn_value_None _ _ _ _ E).
Qed.

Lemma collect_resolved r pp body params args :
  Forall2 (deserialized_from deserialize r pp body) params args ->
  forall acc,
  collect deserialize r pp body params acc = (None, acc ++ args).
Proof.
  induction 1 as [|ps v params args (p & raw & -> & Hraw & Hv) _ IH];
    intros acc; simpl.
  - by rewrite app_nil_r.
  - rewrite Hraw, Hv, IH. by rewrite <- app_assoc.
Qed.

Lemma collect_length r pp body params :
  forall acc,
  (collect deserialize r pp body params acc).1 = None ->
  length (collect deserialize r pp body params acc).2
  = length acc + length params.
Proof.
  induction params as [|[ref|p] rest IH]; intros acc; simpl;
    [lia | done |].
  destruct (drawn_value r pp body p) as [raw|]; [|done].
  destruct (deserialize raw p) as [v|e]; [|done].
  intros H. rewrite (IH _ H), length_app. simpl. lia.
Qed.

Lemma collect_deserialized r pp body params :
  forall acc,
  (collect deserialize r pp body params acc).1 = None ->
  exists args,
    (collect deserialize r pp body params acc).2 = acc ++ args /\
    Forall2 (deserialized_from deserialize r pp body) params args.
Proof.
  induction params as [|[ref|p] rest IH]; intros acc; simpl.
  - intros _. exists []. by rewrite app_nil_r.
  - done.
  - destruct (drawn_value r pp body p) as [raw|] eqn:Hraw; [|done].
    destruct (deserialize raw p) as [v|e] eqn:Hv; [|done].
    intros H. destruct (IH _ H) as (args & -> & Hargs).
    exists (v :: args). rewrite <- app_assoc. split; [done|].
    constructor; [|done]. by exists p, raw.
Qed.

End CollectFacts.

(** ** Running the body loader and the whole parser *)

Section LoaderRuns.

Variable deserialize : JsVal -> ParameterObject -> Completion JsVal.
Variable parseJsonBody : ParsedRequest -> Completion MaybeBody.

Lemma hasArgumentsFromBody_run st operationSpec op :
  heap st !! operationSpec = Some (COperation op) ->
  hasArgumentsFromBody operationSpec st
  = (Normal (needs_body op),
     mkState (heap st) (trace st ++ [EvRead operationSpec])).
Proof.
  intros Ho. unfold hasArgumentsFromBody, bind.
  rewrite (get_operation_run _ _ _ Ho).
  unfold needs_body, parameters_of.
  destruct (op_parameters op) as [[|ps params]|]; done.
Qed.

Lemma getContentType_run st request r :
  heap st !! request = Some (CRequest r) ->
  getContentType request st
  = (Normal (content_type r),
     mkState (heap st) (trace st ++ [EvRead request])).
Proof.
  intros Hr. unfold getContentType, bind.
  by rewrite (get_request_run _ _ _ Hr).
Qed.

Lemma loadRequestBodyIfNeeded_not_needed st operationSpec request op :
  heap st !! operationSpec = Some (COperation op) ->
  needs_body op = false ->
  loadRequestBodyIfNeeded parseJsonBody operationSpec request st
  = (Normal JUndefined,
     mkState (heap st) (trace st ++ [EvRead operationSpec])).
Proof.
  intros Ho Hn. unfold loadRequestBodyIfNeeded, bind.
  by rewrite (hasArgumentsFromBody_run _ _ _ Ho), Hn.
Qed.

Lemma loadRequestBodyIfNeeded_run st operationSpec request op r :
  heap st !! operationSpec = Some (COperation op) ->
  heap st !! request = Some (CRequest r) ->
  loadRequestBodyIfNeeded parseJsonBody operationSpec request st
  = (load_outcome parseJsonBody op r,
     mkState (heap st)
             (trace st ++ load_events operationSpec request op r)).
Proof.
  intros Ho Hr. unfold loadRequestBodyIfNeeded, bind.
  rewrite (hasArgumentsFromBody_run _ _ _ Ho).
  unfold load_outcome, load_events.
  destruct (needs_body op); cbn [negb]; [|done].
  rewrite (getContentType_run _ request r) by exact Hr.
  fold (media_type_refused r).
  destruct (media_type_refused r); cbn [negb].
  - unfold throw. cbn [heap trace]. by rewrite <- app_assoc.
  - unfold catch, callParseJsonBody, bind.
    rewrite (get_request_run _ request r) by exact Hr.
    unfold emit, lift, throw. cbn [heap trace].
    rewrite <- !app_assoc. simpl. by destruct (parseJsonBody r).
Qed.

(** The footprint of [buildOperationArguments], whatever the heap
    holds. *)
Lemma buildOperationArguments_footprint operationSpec request pathParams
    body st :
  let run := buildOperationArguments deserialize operationSpec request
               pathParams body st in
  let args := fresh (dom (heap st)) in
  (forall l, l <> args -> heap run.2 !! l = heap st !! l)
  /\ (exists a, heap run.2 !! args = Some (CArgs a))
  /\ (exists tr, trace run.2 = trace st ++ EvAlloc args :: tr
                 /\ Forall (build_event args) tr)
  /\ (forall l, run.1 = Normal l -> l = args).
Proof.
  cbv zeta. set (args := fresh (dom (heap st))).
  set (rest := let* op := get_operation operationSpec in
               let* _ := buildArguments deserialize request pathParams body
                           args (default [] (op_parameters op)) in
               ret args).
  set (st0 := mkState (<[args := CArgs []]> (heap st))
                      (trace st ++ [EvAlloc args])).
  assert (Hrun : buildOperationArguments deserialize operationSpec request
                   pathParams body st = rest st0) by done.
  assert (Hconf : confined args rest).
  { apply confined_bind; [apply confined_get_operation|]. intros op.
    apply confined_bind; [apply confined_buildArguments|]. intros _.
    apply confined_ret. }
  destruct (Hconf st0) as [F A (tr & Etr & Htr)]. rewrite Hrun.
  repeat split.
  - intros l Hl. rewrite F by done. simpl. by rewrite lookup_insert_ne.
  - apply (A []). simpl. by rewrite lookup_insert_eq.
  - exists tr. split; [|done]. rewrite Etr. simpl. by rewrite <- app_assoc.
  - unfold rest, bind, ret.
    destruct (get_operation operationSpec st0) as [[op|e] st1]; [|done].
    destruct (buildArguments _ _ _ _ _ _ st1) as [[[]|e] st2]; [|done].
    simpl. congruence.
Qed.

Lemma added_events_app st st' tr :
  trace st' = trace st ++ tr -> added_events st st' = tr.
Proof. unfold added_events. intros ->. by rewrite drop_app_length. Qed.

Lemma parseOperationArgs_run request route st op r pp :
  inputs_at st (route_spec route) request (route_pathParams route) op r pp ->
  parseOperationArgs deserialize parseJsonBody request route st
  = match load_outcome parseJsonBody op r with
    | Normal body =>
        buildOperationArguments deserialize (route_spec route) request
          (route_pathParams route) body
          (mkState (heap st)
             (trace st ++ load_events (route_spec route) request op r))
    | Throw e =>
        (Throw e,
         mkState (heap st)
           (trace st ++ load_events (route_spec route) request op r))
    end.
Proof.
  intros [Ho Hr Hp]. unfold parseOperationArgs, bind.
  by rewrite (loadRequestBodyIfNeeded_run _ _ _ _ _ Ho Hr).
Qed.

Lemma build_event_not_parse args tr request :
  Forall (build_event args) tr -> EvParseJsonBody request ∉ tr.
Proof.
  intros H Hin. rewrite Forall_forall in H. apply (H _ Hin).
Qed.

Lemma parse_event_in_load_events operationSpec request op r :
  EvParseJsonBody request ∈ load_events operationSpec request op r
  <-> needs_body op = true /\ media_type_refused r = false.
Proof.
  unfold load_events.
  destruct (needs_body op), (media_type_refused r); simpl;
    rewrite ?elem_of_cons, ?elem_of_nil; intuition congruence.
Qed.

(** The events that [parseOperationArgs] adds contain the parsing of the
    body exactly when the loader reaches it. *)
Lemma parseOperationArgs_parse_event request route st op r pp :
  inputs_at st (route_spec route) request (route_pathParams route) op r pp ->
  EvParseJsonBody request
    ∈ added_events st
        (parseOperationArgs deserialize parseJsonBody request route st).2
  <-> needs_body op = true /\ media_type_refused r = false.
Proof.
  intros Hin. rewrite (parseOperationArgs_run _ _ _ _ _ _ Hin).
  rewrite <- (parse_event_in_load_events (route_spec route) request op r).
  set (ev := load_events _ _ _ _).
  destruct (load_outcome parseJsonBody op r) as [body|e].
  - destruct (buildOperationArguments_footprint (route_spec route) request
                (route_pathParams route) body
                (mkState (heap st) (trace st ++ ev)))
      as (_ & _ & (tr & Etr & Htr) & _).
    simpl in Etr. rewrite <- app_assoc in Etr.
    rewrite (added_events_app _ _ _ Etr), elem_of_app, elem_of_cons.
    pose proof (build_event_not_parse _ _ request Htr) as Hnot.
    split; [intros [?|[[=]|?]]; done | auto].
  - by rewrite (added_events_app _ _ ev).
Qed.

End LoaderRuns.

(** ** The outcome of [parseOperationArgs] once the body is loaded *)

Section ParserOutcome.

Variable deserialize : JsVal -> ParameterObject -> Completion JsVal.
Variable parseJsonBody : ParsedRequest -> Completion MaybeBody.

Lemma loaded_body request route st op r pp body :
  inputs_at st (route_spec route) request (route_pathParams route) op r pp ->
  (loadRequestBodyIfNeeded parseJsonBody (route_spec route) request st).1
  = Normal body ->
  load_outcome parseJsonBody op r = Normal body.
Proof.
  intros [Ho Hr _]. by rewrite (loadRequestBodyIfNeeded_run _ _ _ _ _ _ Ho Hr).
Qed.

Lemma parseOperationArgs_outcome request route st op r pp body :
  inputs_at st (route_spec route) request (route_pathParams route) op r pp ->
  load_outcome parseJsonBody op r = Normal body ->
  let run := parseOperationArgs deserialize parseJsonBody request route st in
  let args := fresh (dom (heap st)) in
  let res := collect deserialize r pp body (parameters_of op) [] in
  run.1 = match res.1 with None => Normal args | Some e => Throw e end
  /\ heap run.2 = <[args := CArgs res.2]> (heap st).
Proof.
  intros Hin Hload. cbv zeta.
  rewrite (parseOperationArgs_run _ _ _ _ _ _ _ _ Hin), Hload.
  apply (buildOperationArguments_run deserialize (route_spec route) request
           (route_pathParams route) body op r pp (mkState (heap st) _)).
  destruct Hin. by split.
Qed.

Lemma collect_no_error r pp body params :
  Forall (fun ps => accepted ps = true) params ->
  (forall p raw, PParam p ∈ params -> drawn_value r pp body p = Some raw ->
                 exists v, deserialize raw p = Normal v) ->
  forall acc, (collect deserialize r pp body params acc).1 = None.
Proof.
  induction 1 as [|[ref|p] rest Hacc _ IH]; intros Hdes acc; simpl;
    [done | done |].
  destruct (drawn_value_is_Some r pp body p Hacc) as [raw Hraw].
  rewrite Hraw. destruct (Hdes p raw) as [v ->]; [by left | done |].
  apply IH. intros p' raw' Hin. apply Hdes. by right.
Qed.

Lemma collect_same_request r1 r2 pp body params :
  req_query r1 = req_query r2 -> req_headers r1 = req_headers r2 ->
  forall acc,
  collect deserialize r1 pp body params acc
  = collect deserialize r2 pp body params acc.
Proof.
  intros Hq Hh. induction params as [|[ref|p] rest IH]; intros acc; simpl;
    [done | done |].
  assert (drawn_value r1 pp body p = drawn_value r2 pp body p) as ->
    by (unfold drawn_value; by rewrite Hq, Hh).
  destruct (drawn_value r2 pp body p) as [raw|]; [|done].
  destruct (deserialize raw p); [apply IH | done].
Qed.

Lemma collect_first_rejection r pp body params :
  (forall p raw, PParam p ∈ params -> drawn_value r pp body p = Some raw ->
                 exists v, deserialize raw p = Normal v) ->
  forall acc,
  (collect deserialize r pp body params acc).1 = first_rejection params.
Proof.
  induction params as [|[ref|p] rest IH]; intros Hdes acc;
    cbn [collect first_rejection]; [done | done |].
  destruct (supported_in (param_in p)) eqn:E.
  - destruct (drawn_value_is_Some r pp body p E) as [raw Hraw].
    rewrite Hraw. destruct (Hdes p raw) as [v ->]; [by left | done |].
    apply IH. intros p' raw' Hin. apply Hdes. by right.
  - by rewrite (drawn_value_None _ _ _ _ E).
Qed.

End ParserOutcome.

(** * The claims *)

Section Claims.

Variable deserialize : JsVal -> ParameterObject -> Completion JsVal.
Variable parseJsonBody : ParsedRequest -> Completion MaybeBody.

(** C1, as amended.  For every route whose operation spec has only
    non-$ref parameters with [in] among query, path, header, formData and
    body, if loading the request body resolves (with [body]) and
    [deserialize] returns normally on every value drawn, then
    [parseOperationArgs] resolves with a new array that holds, for each
    parameter in the order of the spec, the deserialized value drawn from
    the location its [in] names ([drawn_value]): [request.query[name]],
    [pathParams[name]], [request.headers[name.toLowerCase()]],
    [body[name]] (undefined when the body is falsy), or the whole body. *)
Theorem parseOperationArgs_arguments request route st op r pp body :
  inputs_at st (route_spec route) request (route_pathParams route) op r pp ->
  Forall (fun ps => accepted ps = true) (parameters_of op) ->
  (loadRequestBodyIfNeeded parseJsonBody (route_spec route) request st).1
  = Normal body ->
  (forall p raw, PParam p ∈ parameters_of op ->
                 drawn_value r pp body p = Some raw ->
                 exists v, deserialize raw p = Normal v) ->
  exists l args,
    (parseOperationArgs deserialize parseJsonBody request route st).1
    = Normal l
    /\ heap st !! l = None
    /\ heap (parseOperationArgs deserialize parseJsonBody request route st).2
         !! l = Some (CArgs args)
    /\ Forall2 (deserialized_from deserialize r pp body)
               (parameters_of op) args.
Proof.
  intros Hin Hacc Hload Hdes.
  apply (loaded_body parseJsonBody _ _ _ _ _ _ _ Hin) in Hload.
  destruct (parseOperationArgs_outcome deserialize parseJsonBody _ _ _ _ _ _ _
              Hin Hload) as [H1 H2].
  pose proof (collect_no_error deserialize r pp body _ Hacc Hdes []) as Hnone.
  destruct (collect_deserialized deserialize r pp body _ [] Hnone)
    as (args & Hargs & Hall).
  rewrite Hnone in H1. rewrite Hargs in H2. simpl in H2.
  exists (fresh (dom (heap st))), args. repeat split.
  - exact H1.
  - apply fresh_loc_unused.
  - rewrite H2. apply lookup_insert_eq.
  - exact Hall.
Qed.

(** C3, as amended.  [parseOperationArgs] reads and JSON-parses the
    request body if and only if the operation spec contains a non-$ref
    parameter whose [in] is formData or body and the content type of the
    request is not refused (it is absent, empty, or contains json).  When
    the spec has no such parameter, [loadRequestBodyIfNeeded] resolves
    with undefined after reading the operation spec only: it inspects
    neither the request nor its content-type header. *)
Theorem body_parsed_iff request route st op r pp :
  inputs_at st (route_spec route) request (route_pathParams route) op r pp ->
  (EvParseJsonBody request
     ∈ added_events st
         (parseOperationArgs deserialize parseJsonBody request route st).2
   <-> Exists from_body (parameters_of op) /\ ~ refuses_media_type r)
  /\ (~ Exists from_body (parameters_of op) ->
      loadRequestBodyIfNeeded parseJsonBody (route_spec route) request st
      = (Normal JUndefined,
         mkState (heap st) (trace st ++ [EvRead (route_spec route)]))).
Proof.
  intros Hin. split.
  - rewrite (parseOperationArgs_parse_event _ _ _ _ _ _ _ _ Hin).
    unfold needs_body.
    by rewrite hasBodySource_true_iff, media_type_refused_false_iff.
  - intros Hno. destruct Hin as [Ho _ _].
    apply (loadRequestBodyIfNeeded_not_needed _ _ _ _ _ Ho).
    unfold needs_body. destruct (hasBodySource _) eqn:E; [|done].
    by apply hasBodySource_true_iff in E.
Qed.

(** C4, as amended.  Given an operation spec with a non-$ref formData or
    body parameter, [loadRequestBodyIfNeeded] rejects if and only if the
    content type of the request is a non-empty string without json in
    it, or the JSON parsing of the body fails.  In the first case the
    rejection is the UnsupportedMediaType (415) error and the body is
    never parsed; otherwise a parsing failure is rejected with its
    statusCode set to 400.  [parseOperationArgs] rejects with the same
    error whenever the loader does. *)
Theorem loadRequestBodyIfNeeded_rejects_iff request route st op r pp :
  inputs_at st (route_spec route) request (route_pathParams route) op r pp ->
  Exists from_body (parameters_of op) ->
  let load := loadRequestBodyIfNeeded parseJsonBody (route_spec route)
                request st in
  ((exists e, load.1 = Throw e)
   <-> refuses_media_type r \/ exists e, parseJsonBody r = Throw e)
  /\ (forall ct, content_type r = Some ct -> refuses_media_type r ->
        load.1 = Throw (UnsupportedMediaType
                          ("Content-type " +:+ ct +:+ " is not supported."))
        /\ EvParseJsonBody request ∉ added_events st load.2)
  /\ (forall e, ~ refuses_media_type r -> parseJsonBody r = Throw e ->
        load.1 = Throw (set_statusCode 400 e))
  /\ (forall e, load.1 = Throw e ->
        (parseOperationArgs deserialize parseJsonBody request route st).1
        = Throw e).
Proof.
  intros Hin Hbody. cbv zeta.
  pose proof Hin as [Ho Hr _].
  rewrite (loadRequestBodyIfNeeded_run _ _ _ _ _ _ Ho Hr).
  rewrite (parseOperationArgs_run _ _ _ _ _ _ _ _ Hin). simpl.
  apply hasBodySource_true_iff in Hbody.
  unfold load_outcome, load_events, needs_body. rewrite Hbody. simpl.
  destruct (media_type_refused r) eqn:E.
  - apply media_type_refused_true_iff in E as Href.
    split; [|split; [|split]].
    + split; [by left | eauto].
    + intros ct Hct _. rewrite Hct. simpl. split; [done|].
      rewrite (added_events_app st _ [EvRead (route_spec route);
                                     EvRead request]) by done.
      rewrite !elem_of_cons, elem_of_nil. by intros [|[|]].
    + done.
    + by intros e [= <-].
  - apply media_type_refused_false_iff in E as Href.
    split; [|split; [|split]].
    + split.
      * intros [e He]. right.
        destruct (parseJsonBody r) as [b|e']; [discriminate | eauto].
      * intros [?|[e He]]; [done|]. rewrite He. eauto.
    + done.
    + by intros e _ ->.
    + intros e H. destruct (parseJsonBody r); by simplify_eq.
Qed.

(** C5, as amended.  When [deserialize] returns normally on the value
    drawn for every parameter of the spec, [buildOperationArguments]
    throws if and only if the parameter list contains a $ref entry or a
    parameter whose [in] is outside query, path, header, formData and
    body; what it throws is decided by the first such entry: the Error
    that $ref parameters are not supported yet, or NotImplemented.  When
    the parameters are absent, empty, or all accepted, it then returns
    an argument array without throwing. *)
Theorem buildOperationArguments_throws_iff operationSpec request pathParams
    body st op r pp :
  inputs_at st operationSpec request pathParams op r pp ->
  (forall p raw, PParam p ∈ parameters_of op ->
                 drawn_value r pp body p = Some raw ->
                 exists v, deserialize raw p = Normal v) ->
  let run := buildOperationArguments deserialize operationSpec request
               pathParams body st in
  ((exists e, run.1 = Throw e)
   <-> Exists (fun ps => accepted ps = false) (parameters_of op))
  /\ (forall e, run.1 = Throw e -> first_rejection (parameters_of op) = Some e)
  /\ (Forall (fun ps => accepted ps = true) (parameters_of op) ->
      exists l args, run.1 = Normal l
                     /\ heap run.2 !! l = Some (CArgs args)).
Proof.
  intros Hin Hdes. cbv zeta.
  destruct (buildOperationArguments_run deserialize _ _ _ body _ _ _ _ Hin)
    as [H1 H2].
  rewrite (collect_first_rejection deserialize r pp body _ Hdes) in H1.
  rewrite H1, <- first_rejection_Some_iff. repeat split.
  - intros [e He]. destruct (first_rejection _); [done | discriminate].
  - intros [e ->]. eauto.
  - intros e. destruct (first_rejection _); congruence.
  - intros Hacc%first_rejection_None_iff. rewrite Hacc.
    eexists _, _. split; [done|]. rewrite H2. apply lookup_insert_eq.
Qed.

(** C7.  Two calls of [buildOperationArguments], in any two heaps and on
    any references, that are given equal operation specs, requests with
    equal query and headers, equal path parameters and equal bodies have
    equal outcomes: both throw the same error, or both return arrays with
    equal contents.  Nothing else in the heap has a say. *)
Theorem buildOperationArguments_deterministic
    operationSpec1 request1 pathParams1 st1
    operationSpec2 request2 pathParams2 st2 body op r1 r2 pp :
  inputs_at st1 operationSpec1 request1 pathParams1 op r1 pp ->
  inputs_at st2 operationSpec2 request2 pathParams2 op r2 pp ->
  req_query r1 = req_query r2 ->
  req_headers r1 = req_headers r2 ->
  outcome (buildOperationArguments deserialize operationSpec1 request1
             pathParams1 body st1)
  = outcome (buildOperationArguments deserialize operationSpec2 request2
               pathParams2 body st2).
Proof.
  intros Hin1 Hin2 Hq Hh. unfold outcome.
  destruct (buildOperationArguments_run deserialize _ _ _ body _ _ _ _ Hin1)
    as [H1 H2].
  destruct (buildOperationArguments_run deserialize _ _ _ body _ _ _ _ Hin2)
    as [H3 H4].
  rewrite (collect_same_request deserialize r1 r2 pp body _ Hq Hh) in H1, H2.
  rewrite H1, H3.
  destruct (collect deserialize r2 pp body (parameters_of op) []).1; [done|].
  by rewrite H2, H4, !lookup_insert_eq.
Qed.

(** C8.  [buildOperationArguments] leaves every object that exists before
    the call as it is, in particular the operation spec with its parameter
    list, the path parameter map and the request with its query and
    headers: no such object is written.  What it returns is a reference
    that was unused before the call and now holds the argument array. *)
Theorem buildOperationArguments_frame operationSpec request pathParams
    body st l c :
  heap st !! l = Some c ->
  let run := buildOperationArguments deserialize operationSpec request
               pathParams body st in
  heap run.2 !! l = Some c
  /\ (EvWrite l ∉ added_events st run.2)
  /\ (forall a, run.1 = Normal a ->
        heap st !! a = None
        /\ exists args, heap run.2 !! a = Some (CArgs args)).
Proof.
  intros Hl. cbv zeta.
  destruct (buildOperationArguments_footprint deserialize operationSpec
              request pathParams body st)
    as (Hframe & Harr & (tr & Etr & Htr) & Hres).
  pose proof (fresh_loc_unused st) as Hfresh.
  assert (Hne : l <> fresh (dom (heap st))) by (intros ->; congruence).
  repeat split.
  - by rewrite Hframe.
  - rewrite (added_events_app _ _ _ Etr), elem_of_cons.
    intros [[=]|Hw]. rewrite Forall_forall in Htr. by apply Htr in Hw.
  - by rewrite (Hres _ H).
  - by rewrite (Hres _ H).
Qed.

(** C9.  For every operation spec whose parameters are all accepted
    (the list may be absent or empty), a value [parseOperationArgs]
    resolves with is an array of the length of the parameter list that
    holds one argument per parameter entry, in the order of the spec:
    the argument at each position is the deserialized value that the
    parameter at that position draws, the body being the one the loader
    resolved with.  And it does resolve whenever loading the body
    resolves and [deserialize] returns normally on the values drawn. *)
Theorem parseOperationArgs_array_length request route st op r pp :
  inputs_at st (route_spec route) request (route_pathParams route) op r pp ->
  Forall (fun ps => accepted ps = true) (parameters_of op) ->
  let run := parseOperationArgs deserialize parseJsonBody request route st in
  (forall l, run.1 = Normal l ->
     exists body args,
       (loadRequestBodyIfNeeded parseJsonBody (route_spec route)
          request st).1 = Normal body
       /\ heap st !! l = None
       /\ heap run.2 !! l = Some (CArgs args)
       /\ length args = length (parameters_of op)
       /\ Forall2 (deserialized_from deserialize r pp body)
                  (parameters_of op) args)
  /\ (forall body,
        (loadRequestBodyIfNeeded parseJsonBody (route_spec route)
           request st).1 = Normal body ->
        (forall p raw, PParam p ∈ parameters_of op ->
                       drawn_value r pp body p = Some raw ->
                       exists v, deserialize raw p = Normal v) ->
        exists l, run.1 = Normal l).
Proof.
  intros Hin Hacc. cbv zeta. pose proof Hin as [Ho Hr _]. split.
  - intros l Hl.
    rewrite (loadRequestBodyIfNeeded_run _ _ _ _ _ _ Ho Hr). cbn [fst].
    destruct (load_outcome parseJsonBody op r) as [body|e] eqn:Hload.
    + destruct (parseOperationArgs_outcome deserialize parseJsonBody _ _ _ _
                  _ _ _ Hin Hload) as [H1 H2].
      rewrite H1 in Hl.
      destruct (collect deserialize r pp body (parameters_of op) []).1
        eqn:Hnone; [discriminate|].
      injection Hl as <-.
      destruct (collect_deserialized deserialize r pp body _ [] Hnone)
        as (args & Hargs & Hall).
      rewrite Hargs in H2. cbn [app] in H2.
      exists body, args. repeat split.
      * apply fresh_loc_unused.
      * rewrite H2. apply lookup_insert_eq.
      * symmetry. apply (Forall2_length _ _ _ Hall).
      * exact Hall.
    + rewrite (parseOperationArgs_run _ _ _ _ _ _ _ _ Hin), Hload in Hl.
      discriminate.
  - intros body Hload Hdes.
    apply (loaded_body parseJsonBody _ _ _ _ _ _ _ Hin) in Hload.
    destruct (parseOperationArgs_outcome deserialize parseJsonBody _ _ _ _
                _ _ _ Hin Hload) as [H1 _].
    rewrite (collect_no_error deserialize r pp body _ Hacc Hdes) in H1.
    eauto.
Qed.

End Claims.

(** ** The claims at sample inputs *)

Lemma sample_inputs_at params r :
  inputs_at (sample_state params r) 1 2 3 (mkOperation params) r
            sample_pathParams.
Proof. by split. Defined.

Lemma sample_parameters_accepted :
  Forall (fun ps => accepted ps = true) sample_parameters.
Proof. repeat constructor. Defined.

Lemma sample_parameters_from_body : Exists from_body sample_parameters.
Proof.
  do 3 apply Exists_cons_tl. apply Exists_cons_hd.
  eexists. split; [reflexivity | by left].
Defined.

Lemma sample_deserialize_total val p :
  exists v, sample_deserialize val p = Normal v.
Proof. by exists val. Defined.

(** C1 as stated fails: all five parameters of the sample spec are
    accepted, yet with a text/plain request the promise is rejected with
    the 415 error instead of resolving with an argument list. *)
Lemma parseOperationArgs_rejects_text_plain :
  Forall (fun ps => accepted ps = true) sample_parameters
  /\ (parseOperationArgs sample_deserialize sample_parseJsonBody 2
        sample_route
        (sample_state (Some sample_parameters)
                      (sample_request "text/plain" "[1]"))).1
     = Throw (UnsupportedMediaType
                "Content-type text/plain is not supported.").
Proof. split; [exact sample_parameters_accepted | reflexivity]. Qed.

Lemma parseOperationArgs_arguments_sample :
  exists l args,
    (parseOperationArgs sample_deserialize sample_parseJsonBody 2
       sample_route
       (sample_state (Some sample_parameters)
                     (sample_request "application/json" "[1]"))).1
    = Normal l
    /\ heap (sample_state (Some sample_parameters)
                          (sample_request "application/json" "[1]")) !! l
       = None
    /\ heap (parseOperationArgs sample_deserialize sample_parseJsonBody 2
               sample_route
               (sample_state (Some sample_parameters)
                             (sample_request "application/json" "[1]"))).2
         !! l = Some (CArgs args)
    /\ Forall2 (deserialized_from sample_deserialize
                  (sample_request "application/json" "[1]")
                  sample_pathParams (JArray [JNumber 1]))
               sample_parameters args.
Proof.
  apply (parseOperationArgs_arguments sample_deserialize sample_parseJsonBody
           2 sample_route
           (sample_state (Some sample_parameters)
                         (sample_request "application/json" "[1]"))
           (mkOperation (Some sample_parameters))
           (sample_request "application/json" "[1]") sample_pathParams
           (JArray [JNumber 1]) (sample_inputs_at _ _)).
  - exact sample_parameters_accepted.
  - reflexivity.
  - intros p raw _ _. apply sample_deserialize_total.
Defined.

(** C3 as stated fails: the sample spec has a formData and a body
    parameter, yet with a text/plain request the body is not parsed. *)
Lemma body_not_parsed_text_plain :
  Exists from_body sample_parameters
  /\ EvParseJsonBody 2
       ∉ added_events
           (sample_state (Some sample_parameters)
                         (sample_request "text/plain" "[1]"))
           (parseOperationArgs sample_deserialize sample_parseJsonBody 2
              sample_route
              (sample_state (Some sample_parameters)
                            (sample_request "text/plain" "[1]"))).2.
Proof.
  split; [exact sample_parameters_from_body|].
  change (EvParseJsonBody 2%positive ∉ [EvRead 1%positive; EvRead 2%positive]).
  rewrite !elem_of_cons, elem_of_nil. by intros [|[|]].
Qed.

Lemma body_parsed_iff_sample :
  (EvParseJsonBody 2
     ∈ added_events
         (sample_state (Some sample_parameters)
                       (sample_request "application/json" "[1]"))
         (parseOperationArgs sample_deserialize sample_parseJsonBody 2
            sample_route
            (sample_state (Some sample_parameters)
                          (sample_request "application/json" "[1]"))).2
   <-> Exists from_body sample_parameters
       /\ ~ refuses_media_type (sample_request "application/json" "[1]"))
  /\ (~ Exists from_body sample_parameters ->
      loadRequestBodyIfNeeded sample_parseJsonBody 1 2
        (sample_state (Some sample_parameters)
                      (sample_request "application/json" "[1]"))
      = (Normal JUndefined,
         mkState (heap (sample_state (Some sample_parameters)
                          (sample_request "application/json" "[1]")))
                 [EvRead 1%positive])).
Proof.
  exact (body_parsed_iff sample_deserialize sample_parseJsonBody 2
           sample_route
           (sample_state (Some sample_parameters)
                         (sample_request "application/json" "[1]"))
           (mkOperation (Some sample_parameters))
           (sample_request "application/json" "[1]") sample_pathParams
           (sample_inputs_at _ _)).
Defined.

(** C4 as stated fails twice.  With an empty content-type header, which is
    defined and does not contain json, the loader resolves; and with a
    $ref entry in the spec [parseOperationArgs] rejects although the
    content type is accepted and the body parses. *)
Lemma rejection_claim_fails :
  (Exists from_body sample_parameters
   /\ content_type (sample_request "" "[1]") = Some EmptyString
   /\ regex_json_test EmptyString = false
   /\ (loadRequestBodyIfNeeded sample_parseJsonBody 1 2
         (sample_state (Some sample_parameters)
                       (sample_request "" "[1]"))).1
      = Normal (JArray [JNumber 1]))
  /\ (Exists from_body sample_parameters_rejected
      /\ (loadRequestBodyIfNeeded sample_parseJsonBody 1 2
            (sample_state (Some sample_parameters_rejected)
                          (sample_request "application/json" "[1]"))).1
         = Normal (JArray [JNumber 1])
      /\ (parseOperationArgs sample_deserialize sample_parseJsonBody 2
            sample_route
            (sample_state (Some sample_parameters_rejected)
                          (sample_request "application/json" "[1]"))).1
         = Throw RefNotSupported).
Proof.
  repeat split; try reflexivity.
  - exact sample_parameters_from_body.
  - apply Exists_app. left. exact sample_parameters_from_body.
Qed.

Lemma loadRequestBodyIfNeeded_rejects_iff_sample :
  let st := sample_state (Some sample_parameters)
                         (sample_request "text/plain" "[1") in
  let load := loadRequestBodyIfNeeded sample_parseJsonBody 1 2 st in
  ((exists e, load.1 = Throw e)
   <-> refuses_media_type (sample_request "text/plain" "[1")
       \/ exists e, sample_parseJsonBody (sample_request "text/plain" "[1")
                    = Throw e)
  /\ (forall ct,
        content_type (sample_request "text/plain" "[1") = Some ct ->
        refuses_media_type (sample_request "text/plain" "[1") ->
        load.1 = Throw (UnsupportedMediaType
                          ("Content-type " +:+ ct +:+ " is not supported."))
        /\ EvParseJsonBody 2 ∉ added_events st load.2)
  /\ (forall e,
        ~ refuses_media_type (sample_request "text/plain" "[1") ->
        sample_parseJsonBody (sample_request "text/plain" "[1") = Throw e ->
        load.1 = Throw (set_statusCode 400 e))
  /\ (forall e, load.1 = Throw e ->
        (parseOperationArgs sample_deserialize sample_parseJsonBody 2
           sample_route st).1 = Throw e).
Proof.
  exact (loadRequestBodyIfNeeded_rejects_iff sample_deserialize
           sample_parseJsonBody 2 sample_route
           (sample_state (Some sample_parameters)
                         (sample_request "text/plain" "[1"))
           (mkOperation (Some sample_parameters))
           (sample_request "text/plain" "[1") sample_pathParams
           (sample_inputs_at _ _) sample_parameters_from_body).
Defined.

(** C5 as stated fails: the one parameter of the spec is accepted, yet
    with a deserializer that throws on a missing value the call throws,
    and no entry of the list is a reference or has an unsupported
    [in]. *)
Lemma buildOperationArguments_throws_on_accepted :
  Forall (fun ps => accepted ps = true) sample_parameters_missing
  /\ ~ Exists (fun ps => accepted ps = false) sample_parameters_missing
  /\ (buildOperationArguments strict_deserialize 1 2 3 JUndefined
        (sample_state (Some sample_parameters_missing)
                      (sample_request "application/json" "[1]"))).1
     = Throw (mkJsError "BadRequestError"
                "Value is not provided for parameter page" (Some 400%Z)).
Proof.
  split; [repeat constructor|]. split; [|reflexivity].
  intros [H|H%Exists_nil]%Exists_cons; [discriminate H | exact H].
Qed.

Lemma sample_deserialize_drawn (params : list ParamSpec) r pp body p raw :
  PParam p ∈ params -> drawn_value r pp body p = Some raw ->
  exists v, sample_deserialize raw p = Normal v.
Proof. intros _ _. apply sample_deserialize_total. Defined.

Lemma buildOperationArguments_throws_iff_sample :
  (let run := buildOperationArguments sample_deserialize 1 2 3
                (JArray [JNumber 1])
                (sample_state (Some sample_parameters_rejected)
                              (sample_request "application/json" "[1]")) in
   ((exists e, run.1 = Throw e)
    <-> Exists (fun ps => accepted ps = false) sample_parameters_rejected)
   /\ (forall e, run.1 = Throw e ->
                 first_rejection sample_parameters_rejected = Some e)
   /\ (Forall (fun ps => accepted ps = true) sample_parameters_rejected ->
       exists l args, run.1 = Normal l
                      /\ heap run.2 !! l = Some (CArgs args)))
  /\ (let run := buildOperationArguments sample_deserialize 1 2 3
                   (JArray [JNumber 1])
                   (sample_state (Some sample_parameters)
                                 (sample_request "application/json" "[1]")) in
      ((exists e, run.1 = Throw e)
       <-> Exists (fun ps => accepted ps = false) sample_parameters)
      /\ (forall e, run.1 = Throw e ->
                    first_rejection sample_parameters = Some e)
      /\ (Forall (fun ps => accepted ps = true) sample_parameters ->
          exists l args, run.1 = Normal l
                         /\ heap run.2 !! l = Some (CArgs args))).
Proof.
  split.
  - exact (buildOperationArguments_throws_iff sample_deserialize 1 2 3
             (JArray [JNumber 1])
             (sample_state (Some sample_parameters_rejected)
                           (sample_request "application/json" "[1]"))
             (mkOperation (Some sample_parameters_rejected))
             (sample_request "application/json" "[1]") sample_pathParams
             (sample_inputs_at _ _)
             (sample_deserialize_drawn _ _ _ _)).
  - exact (buildOperationArguments_throws_iff sample_deserialize 1 2 3
             (JArray [JNumber 1])
             (sample_state (Some sample_parameters)
                           (sample_request "application/json" "[1]"))
             (mkOperation (Some sample_parameters))
             (sample_request "application/json" "[1]") sample_pathParams
             (sample_inputs_at _ _)
             (sample_deserialize_drawn _ _ _ _)).
Defined.

Lemma sample_inputs_at_moved params r :
  inputs_at (sample_state_moved params r) 5 6 7 (mkOperation params) r
            sample_pathParams.
Proof. by split. Defined.

Lemma buildOperationArguments_deterministic_sample :
  outcome (buildOperationArguments sample_deserialize 1 2 3
             (JArray [JNumber 1])
             (sample_state (Some sample_parameters)
                           (sample_request "application/json" "[1]")))
  = outcome (buildOperationArguments sample_deserialize 5 6 7
               (JArray [JNumber 1])
               (sample_state_moved (Some sample_parameters)
                                   (sample_request "application/json" "{}"))).
Proof.
  exact (buildOperationArguments_deterministic sample_deserialize
           1 2 3 (sample_state (Some sample_parameters)
                               (sample_request "application/json" "[1]"))
           5 6 7 (sample_state_moved (Some sample_parameters)
                               (sample_request "application/json" "{}"))
           (JArray [JNumber 1]) (mkOperation (Some sample_parameters))
           (sample_request "application/json" "[1]")
           (sample_request "application/json" "{}") sample_pathParams
           (sample_inputs_at _ _) (sample_inputs_at_moved _ _)
           eq_refl eq_refl).
Defined.

Lemma buildOperationArguments_frame_sample :
  let st := sample_state (Some sample_parameters)
                         (sample_request "application/json" "[1]") in
  let run := buildOperationArguments sample_deserialize 1 2 3
               (JArray [JNumber 1]) st in
  heap run.2 !! 2%positive
  = Some (CRequest (sample_request "application/json" "[1]"))
  /\ (EvWrite 2 ∉ added_events st run.2)
  /\ (forall a, run.1 = Normal a ->
        heap st !! a = None
        /\ exists args, heap run.2 !! a = Some (CArgs args)).
Proof.
  exact (buildOperationArguments_frame sample_deserialize 1 2 3
           (JArray [JNumber 1])
           (sample_state (Some sample_parameters)
                         (sample_request "application/json" "[1]"))
           2%positive
           (CRequest (sample_request "application/json" "[1]")) eq_refl).
Defined.

Lemma parseOperationArgs_array_length_sample :
  let st := sample_state (Some sample_parameters)
                         (sample_request "application/json" "[1]") in
  let run := parseOperationArgs sample_deserialize sample_parseJsonBody 2
               sample_route st in
  (forall l, run.1 = Normal l ->
     exists body args,
       (loadRequestBodyIfNeeded sample_parseJsonBody 1 2 st).1 = Normal body
       /\ heap st !! l = None
       /\ heap run.2 !! l = Some (CArgs args)
       /\ length args = length sample_parameters
       /\ Forall2 (deserialized_from sample_deserialize
                     (sample_request "application/json" "[1]")
                     sample_pathParams body)
                  sample_parameters args)
  /\ (forall body,
        (loadRequestBodyIfNeeded sample_parseJsonBody 1 2 st).1
        = Normal body ->
        (forall p raw, PParam p ∈ sample_parameters ->
                       drawn_value (sample_request "application/json" "[1]")
                         sample_pathParams body p = Some raw ->
                       exists v, sample_deserialize raw p = Normal v) ->
        exists l, run.1 = Normal l).
Proof.
  exact (parseOperationArgs_array_length sample_deserialize
           sample_parseJsonBody 2 sample_route
           (sample_state (Some sample_parameters)
                         (sample_request "application/json" "[1]"))
           (mkOperation (Some sample_parameters))
           (sample_request "application/json" "[1]") sample_pathParams
           (sample_inputs_at _ _) sample_parameters_accepted).
Defined.

(** ** The authentication metadata provider *)

Section AuthClaims.

Import Auth.

(** Resolving the metadata binding of a context in which the controller
    class and the method name are bound to values. *)
Lemma get_metadata_binding store ctx controllerClass methodName n :
  lookup_binding ctx CONTROLLER_CLASS = Some (To (VClass controllerClass)) ->
  lookup_binding ctx CONTROLLER_METHOD_NAME
  = Some (To (VString methodName)) ->
  lookup_binding ctx CONTROLLER_METHOD_META
  = Some (ToProvider AuthMetadataProvider) ->
  get (S (S n)) store ctx CONTROLLER_METHOD_META
  = Resolved (VMetadata
                (getAuthenticateMetadata controllerClass methodName store)).
Proof.
  intros Hc Hm Hp. simpl in *. by rewrite Hp, Hc, Hm.
Qed.

(** C2.  In a context that binds the controller class, the method name
    and, through [AuthMetadataProvider], the method metadata, resolving
    the metadata binding returns what [authenticate] recorded on that
    method: the strategy name and the options given to the decorator. *)
Theorem provider_returns_decorator_metadata
    store ctx controllerClass methodName strategyName opts n :
  lookup_binding ctx CONTROLLER_CLASS = Some (To (VClass controllerClass)) ->
  lookup_binding ctx CONTROLLER_METHOD_NAME
  = Some (To (VString methodName)) ->
  lookup_binding ctx CONTROLLER_METHOD_META
  = Some (ToProvider AuthMetadataProvider) ->
  get (S (S n))
      (authenticate strategyName opts controllerClass methodName store)
      ctx CONTROLLER_METHOD_META
  = Resolved (VMetadata (Some (mkMetadata strategyName opts))).
Proof.
  intros Hc Hm Hp.
  rewrite (get_metadata_binding _ _ _ _ _ Hc Hm Hp).
  unfold getAuthenticateMetadata, authenticate.
  by rewrite lookup_insert_eq.
Qed.

(** C6.  When no metadata is recorded for the method, resolving the
    metadata binding yields undefined, and is not rejected. *)
Theorem provider_returns_undefined_without_metadata
    store ctx controllerClass methodName n :
  lookup_binding ctx CONTROLLER_CLASS = Some (To (VClass controllerClass)) ->
  lookup_binding ctx CONTROLLER_METHOD_NAME
  = Some (To (VString methodName)) ->
  lookup_binding ctx CONTROLLER_METHOD_META
  = Some (ToProvider AuthMetadataProvider) ->
  getAuthenticateMetadata controllerClass methodName store = None ->
  get (S (S n)) store ctx CONTROLLER_METHOD_META
  = Resolved (VMetadata None).
Proof.
  intros Hc Hm Hp Hnone.
  by rewrite (get_metadata_binding _ _ _ _ _ Hc Hm Hp), Hnone.
Qed.

End AuthClaims.

(** The two cases of the unit test. *)
Lemma provider_returns_decorator_metadata_test :
  Auth.get 2 test_store (test_context "TestController")
           Auth.CONTROLLER_METHOD_META
  = Auth.Resolved
      (Auth.VMetadata (Some (Auth.mkMetadata "my-strategy" test_options))).
Proof.
  exact (provider_returns_decorator_metadata ∅
           (test_context "TestController") "TestController" "whoAmI"
           "my-strategy" test_options 0 eq_refl eq_refl eq_refl).
Defined.

Lemma provider_returns_undefined_without_metadata_test :
  Auth.get 2 test_store (test_context "ControllerWithNoMetadata")
           Auth.CONTROLLER_METHOD_META
  = Auth.Resolved (Auth.VMetadata None).
Proof.
  exact (provider_returns_undefined_without_metadata test_store
           (test_context "ControllerWithNoMetadata")
           "ControllerWithNoMetadata" "whoAmI" 0
           eq_refl eq_refl eq_refl eq_refl).
Defined.

(** * Further properties *)

(** ** The select-dist script *)

Section SelectDistFacts.

Import SelectDist.

Lemma append_cons c s t : String c s +:+ t = String c (s +:+ t).
Proof. reflexivity. Qed.

Lemma append_assoc (s t u : string) : (s +:+ t) +:+ u = s +:+ t +:+ u.
Proof.
  induction s as [|c s IH]; [done|]. by rewrite !append_cons, IH.
Qed.

Lemma includes_cons pat c rest :
  includes pat (String c rest)
  = String.prefix pat (String c rest) || includes pat rest.
Proof. reflexivity. Qed.

Lemma getSubstitution_plain matched before after replacement :
  plain replacement ->
  getSubstitution matched before after replacement = replacement.
Proof.
  unfold plain. induction replacement as [|c rest IH]; [done|].
  rewrite includes_cons. intros [H1 H2]%orb_false_iff.
  cbn [getSubstitution].
  destruct (Ascii.eqb c "$") eqn:E.
  - apply Ascii.eqb_eq in E as ->. cbn in H1. by destruct rest.
  - by rewrite (IH H2).
Qed.

Lemma replace_from_before replacement :
  plain replacement ->
  forall s before before' prev_word skip,
  replace_from replacement before prev_word skip s
  = replace_from replacement before' prev_word skip s.
Proof.
  intros Hplain. induction s as [|c rest IH]; intros b b' pw k; [done|].
  cbn [replace_from]. destruct k as [|k]; [|apply IH].
  rewrite !(getSubstitution_plain _ _ _ _ Hplain).
  destruct (match_here pw (String c rest)); f_equal; apply IH.
Qed.

Lemma prefix_DIST_inv s :
  String.prefix "DIST" s = true ->
  exists rest, s = "DIST" +:+ rest /\ drop_chars 4 s = rest.
Proof.
  intros H.
  destruct s as [|c1 [|c2 [|c3 [|c4 rest]]]]; cbn [String.prefix] in H;
    repeat (destruct (ascii_dec _ _) as [<-|] in H; try discriminate H);
    try discriminate H.
  by exists rest.
Qed.

Lemma match_here_prefix prev_word s :
  String.prefix "DIST" s = false -> match_here prev_word s = false.
Proof.
  intros H. unfold match_here. rewrite H. by destruct prev_word.
Qed.

Lemma replace_from_no_DIST replacement s :
  includes "DIST" s = false ->
  forall before prev_word,
  replace_from replacement before prev_word 0 s = s.
Proof.
  induction s as [|c rest IH]; [done|].
  rewrite includes_cons. intros [H1 H2]%orb_false_iff b pw.
  cbn [replace_from]. rewrite (match_here_prefix _ _ H1).
  by rewrite (IH H2).
Qed.

Lemma replace_from_inside_word replacement s :
  all_word s = true ->
  forall before, replace_from replacement before true 0 s = s.
Proof.
  induction s as [|c rest IH]; [done|].
  cbn [all_word]. intros [H1 H2]%andb_true_iff b.
  cbn [replace_from]. unfold match_here at 1. cbn [negb andb].
  by rewrite H1, (IH H2).
Qed.

Lemma all_word_starts s :
  all_word s = true -> starts_with_word s = false -> s = EmptyString.
Proof.
  destruct s as [|c rest]; [done|]. cbn [all_word starts_with_word].
  intros [H1 _]%andb_true_iff H. congruence.
Qed.

Lemma all_word_app s t :
  all_word (s +:+ t) = true -> all_word t = true.
Proof.
  induction s as [|c rest IH]; [done|]. simpl.
  intros [_ H]%andb_true_iff. auto.
Qed.

(** X7.  A string of word characters other than DIST itself is left as
    it is: DIST inside a longer identifier is not replaced. *)
Theorem replace_DIST_inside_identifier replacement a :
  all_word a = true -> a <> "DIST" -> replace_DIST replacement a = a.
Proof.
  intros Hall Hne. unfold replace_DIST.
  destruct a as [|c rest]; [done|].
  pose proof Hall as [Hc Hrest]%andb_true_iff.
  cbn [replace_from].
  destruct (match_here false (String c rest)) eqn:E.
  - unfold match_here in E. cbn [negb andb] in E.
    apply andb_true_iff in E as [Hpre Hend%negb_true_iff].
    destruct (prefix_DIST_inv _ Hpre) as (post & Heq & Hdrop).
    rewrite Hdrop in Hend. rewrite Heq in Hall.
    apply (all_word_app "DIST") in Hall.
    rewrite (all_word_starts _ Hall Hend) in Heq. by destruct Hne.
  - by rewrite Hc, (replace_from_inside_word _ _ Hrest).
Qed.

Lemma prefix_DIST_starts_with_word s :
  String.prefix "DIST" s = true -> starts_with_word s = true.
Proof.
  intros (rest & -> & _)%prefix_DIST_inv. reflexivity.
Qed.

Lemma replace_from_after_word replacement post :
  starts_with_word post = false ->
  forall before,
  replace_from replacement before true 0 post
  = replace_from replacement before false 0 post.
Proof.
  intros Hpost b. destruct post as [|c rest]; [done|].
  cbn [replace_from]. unfold match_here at 1. cbn [negb andb].
  rewrite match_here_prefix; [done|].
  destruct (String.prefix "DIST" (String c rest)) eqn:E; [|done].
  apply prefix_DIST_starts_with_word in E. congruence.
Qed.

Lemma is_word_char_DIST :
  is_word_char "D" = true /\ is_word_char "I" = true
  /\ is_word_char "S" = true /\ is_word_char "T" = true.
Proof. by repeat split. Qed.

Lemma match_here_app c pre tail prev_word :
  word_before_end (is_word_char c) pre = false ->
  match_here prev_word (String c pre +:+ "DIST" +:+ tail)
  = match_here prev_word (String c pre).
Proof.
  destruct is_word_char_DIST as (HD & HI & HS & HT).
  unfold match_here.
  destruct pre as [|c2 [|c3 [|c4 [|c5 pre]]]];
    rewrite !append_cons, ?(append_cons "D");
    cbn [String.prefix drop_chars starts_with_word word_before_end];
    intros Hend;
    repeat (destruct (ascii_dec _ _) as [<-|]; try congruence;
            rewrite ?andb_false_r; try reflexivity).
Qed.

Lemma match_here_DIST post :
  match_here false (String "D" (String "I" (String "S" (String "T" post))))
  = negb (starts_with_word post).
Proof.
  unfold match_here. cbn [negb andb String.prefix drop_chars].
  repeat (destruct (ascii_dec _ _); [|done]). by destruct post.
Qed.

Lemma replace_from_app_DIST replacement post :
  plain replacement ->
  starts_with_word post = false ->
  forall pre skip prev_word before,
  skip <= String.length pre ->
  word_before_end prev_word pre = false ->
  replace_from replacement before prev_word skip (pre +:+ "DIST" +:+ post)
  = replace_from replacement before prev_word skip pre
    +:+ replacement +:+ replace_from replacement before true 0 post.
Proof.
  intros Hplain Hpost.
  destruct is_word_char_DIST as (_ & _ & _ & HT).
  induction pre as [|c pre IH]; intros k pw b Hk Hend.
  - cbn [String.length] in Hk. cbn [word_before_end] in Hend.
    assert (k = 0) as -> by lia. subst pw.
    change (EmptyString +:+ "DIST" +:+ post)
      with (String "D" (String "I" (String "S" (String "T" post)))).
    cbn [replace_from]. rewrite match_here_DIST, Hpost. cbn [negb].
    rewrite (getSubstitution_plain _ _ _ _ Hplain), HT.
    change (EmptyString +:+ ?x) with x. f_equal.
    apply (replace_from_before _ Hplain).
  - cbn [word_before_end] in Hend. cbn [String.length] in Hk.
    rewrite append_cons. cbn [replace_from]. destruct k as [|k].
    + rewrite <- append_cons, (match_here_app c pre post pw Hend).
      destruct (match_here pw (String c pre)) eqn:E.
      * rewrite !(getSubstitution_plain _ _ _ _ Hplain).
        rewrite IH; [| |done].
        -- rewrite append_assoc. do 3 f_equal.
           apply (replace_from_before _ Hplain).
        -- unfold match_here in E.
           apply andb_true_iff in E as [[_ E]%andb_true_iff _].
           apply prefix_DIST_inv in E as (rest & [= -> ->] & _).
           rewrite !append_cons. cbn [String.length]. lia.
      * rewrite IH; [| lia | done]. rewrite append_cons. do 3 f_equal.
        apply (replace_from_before _ Hplain).
    + rewrite IH; [| lia | done]. do 2 f_equal.
      apply (replace_from_before _ Hplain).
Qed.

(** X6.  With a replacement that has no dollar sign, every DIST that
    stands as a word of its own is replaced, and the text on either side
    is treated by itself: for [pre] that does not end in a word
    character and [post] that does not start with one, the result on
    [pre DIST post] is the result on [pre], the replacement, and the
    result on [post]. *)
Theorem replace_DIST_whole_word replacement pre post :
  plain replacement ->
  ends_with_word pre = false ->
  starts_with_word post = false ->
  replace_DIST replacement (pre +:+ "DIST" +:+ post)
  = replace_DIST replacement pre +:+ replacement
    +:+ replace_DIST replacement post.
Proof.
  intros Hplain Hpre Hpost. unfold replace_DIST.
  rewrite (replace_from_app_DIST _ _ Hplain Hpost) by (done || lia).
  by rewrite (replace_from_after_word _ _ Hpost).
Qed.

Section RunFacts.

Variable Result : Type.
Variable getDistribution : string.
Variable runShell : option string -> list string -> JsVal -> Result.

Lemma shift_drop {A} (l : list A) :
  head (drop 2 l) = l !! 2 /\ tail (drop 2 l) = drop 3 l.
Proof. by destruct l as [|? [|? [|? ?]]]. Qed.

(** X5.  A command line in which DIST does not occur is run as it is:
    the shell is given [argv[2]] as the command (undefined when there is
    none), the entries after it as the arguments, and [dryRun]; the
    first two entries of [argv] play no part. *)
Theorem run_without_DIST argv dryRun :
  Forall (fun a => includes "DIST" a = false) (drop 2 argv) ->
  run Result getDistribution runShell argv dryRun
  = runShell (argv !! 2) (drop 3 argv) dryRun.
Proof.
  intros Hall. unfold run.
  assert (map (fun a => replace_DIST getDistribution a) (drop 2 argv)
          = drop 2 argv) as ->.
  { induction Hall as [|a l Ha _ IH]; [done|]. cbn [map].
    unfold replace_DIST at 1. by rewrite (replace_from_no_DIST _ _ Ha), IH. }
  by destruct (shift_drop argv) as [-> ->].
Qed.

End RunFacts.

End SelectDistFacts.

(** ** The parser, further *)

Section ParserFurther.

Variable deserialize : JsVal -> ParameterObject -> Completion JsVal.
Variable parseJsonBody : ParsedRequest -> Completion MaybeBody.

Lemma collect_rejected r pp body params :
  Exists (fun ps => accepted ps = false) params ->
  forall acc, is_Some (collect deserialize r pp body params acc).1.
Proof.
  induction params as [|[ref|p] rest IH]; intros Hex acc; cbn [collect].
  - by apply Exists_nil in Hex.
  - by eexists.
  - destruct (supported_in (param_in p)) eqn:E.
    + destruct (drawn_value_is_Some r pp body p E) as [raw ->].
      destruct (deserialize raw p); [|by eexists].
      apply IH. apply Exists_cons in Hex as [Hp|]; [|done].
      simpl in Hp. congruence.
    + rewrite (drawn_value_None _ _ _ _ E). by eexists.
Qed.

Lemma drawn_value_without_body r pp body1 body2 p :
  String.eqb (param_in p) "formData" || String.eqb (param_in p) "body"
  = false ->
  drawn_value r pp body1 p = drawn_value r pp body2 p.
Proof.
  intros [H1 H2]%orb_false_iff. unfold drawn_value. cbv zeta.
  by rewrite H1, H2.
Qed.

Lemma collect_without_body r pp body1 body2 params :
  hasBodySource params = false ->
  forall acc,
  collect deserialize r pp body1 params acc
  = collect deserialize r pp body2 params acc.
Proof.
  induction params as [|[ref|p] rest IH]; intros Hno acc;
    cbn [collect hasBodySource] in *; [done | done |].
  destruct (orb _ _) eqn:E; [done|].
  rewrite (drawn_value_without_body r pp body1 body2 p E).
  destruct (drawn_value r pp body2 p) as [raw|]; [|done].
  destruct (deserialize raw p); [by apply IH | done].
Qed.

Lemma includes_app_json a b : regex_json_test (a +:+ "json" +:+ b) = true.
Proof.
  unfold regex_json_test. induction a as [|c a IH].
  - change (EmptyString +:+ "json" +:+ b)
      with (String "j" (String "s" (String "o" (String "n" b)))).
    rewrite includes_cons. cbn [String.prefix].
    repeat (destruct (ascii_dec _ _); [|done]). by destruct b.
  - rewrite append_cons, includes_cons, IH. apply orb_true_r.
Qed.

(** X1.  For an operation whose parameter list is absent or empty,
    [parseOperationArgs] resolves with a new empty array after reading
    the operation spec only: the request, its content type and body, and
    the path parameters are never read, so neither a content type that
    would be refused nor a body that does not parse can fail the call. *)
Theorem parseOperationArgs_without_parameters request route st op :
  heap st !! route_spec route = Some (COperation op) ->
  parameters_of op = [] ->
  parseOperationArgs deserialize parseJsonBody request route st
  = (Normal (fresh (dom (heap st))),
     mkState (<[fresh (dom (heap st)) := CArgs []]> (heap st))
             (trace st ++ [EvRead (route_spec route);
                           EvAlloc (fresh (dom (heap st)));
                           EvRead (route_spec route)])).
Proof.
  intros Ho Hnil. unfold parseOperationArgs, bind.
  rewrite (loadRequestBodyIfNeeded_not_needed _ _ _ _ _ Ho)
    by (unfold needs_body; by rewrite Hnil).
  unfold buildOperationArguments, bind, alloc. cbn [heap trace].
  set (a := fresh (dom (heap st))).
  rewrite (get_operation_run _ (route_spec route) op).
  - cbn [heap trace]. fold (parameters_of op). rewrite Hnil.
    cbn [buildArguments]. unfold ret. by rewrite <- !app_assoc.
  - cbn [heap]. rewrite lookup_insert_ne; [done|].
    intros Heq. pose proof (fresh_loc_unused st) as Hf. fold a in Hf.
    rewrite Heq in Hf. congruence.
Qed.

(** X2.  A spec with a $ref entry, or with a parameter whose [in] is
    outside the five locations, is always rejected by
    [parseOperationArgs], whatever the request holds and whatever
    [deserialize] and the body parser do. *)
Theorem parseOperationArgs_rejects_unaccepted request route st op r pp :
  inputs_at st (route_spec route) request (route_pathParams route) op r pp ->
  Exists (fun ps => accepted ps = false) (parameters_of op) ->
  exists e,
    (parseOperationArgs deserialize parseJsonBody request route st).1
    = Throw e.
Proof.
  intros Hin Hex.
  destruct (load_outcome parseJsonBody op r) as [body|e] eqn:Hload.
  - destruct (parseOperationArgs_outcome deserialize parseJsonBody _ _ _ _
                _ _ _ Hin Hload) as [H1 _].
    destruct (collect_rejected r pp body _ Hex []) as [e He].
    rewrite He in H1. eauto.
  - rewrite (parseOperationArgs_run _ _ _ _ _ _ _ _ Hin), Hload. eauto.
Qed.

(** X3.  The loader and the argument builder agree on when the body
    matters: if [hasArgumentsFromBody] answers false for the operation
    spec, the outcome of [buildOperationArguments] is the same for any
    two bodies, so the undefined body of an unloaded request is never
    looked at. *)
Theorem buildOperationArguments_ignores_unloaded_body
    operationSpec request pathParams st op r pp body1 body2 :
  inputs_at st operationSpec request pathParams op r pp ->
  (hasArgumentsFromBody operationSpec st).1 = Normal false ->
  outcome (buildOperationArguments deserialize operationSpec request
             pathParams body1 st)
  = outcome (buildOperationArguments deserialize operationSpec request
               pathParams body2 st).
Proof.
  intros Hin Hno. pose proof Hin as [Ho _ _].
  rewrite (hasArgumentsFromBody_run _ _ _ Ho) in Hno.
  injection Hno as Hno. unfold outcome.
  destruct (buildOperationArguments_run deserialize _ _ _ body1 _ _ _ _ Hin)
    as [H1 H2].
  destruct (buildOperationArguments_run deserialize _ _ _ body2 _ _ _ _ Hin)
    as [H3 H4].
  rewrite (collect_without_body r pp body1 body2 _ Hno) in H1, H2.
  rewrite H1, H3.
  destruct (collect deserialize r pp body2 (parameters_of op) []).1; [done|].
  by rewrite H2, H4.
Qed.

(** X4.  The media type guard looks for json anywhere in the content
    type: when the spec takes arguments from the body and the content
    type has json as a substring, whatever surrounds it, the loader does
    not reject with 415 but parses the body, and resolves with the
    parsed body or rejects with the parse error under status 400. *)
Theorem loadRequestBodyIfNeeded_json_substring
    operationSpec request st op r a b :
  heap st !! operationSpec = Some (COperation op) ->
  heap st !! request = Some (CRequest r) ->
  Exists from_body (parameters_of op) ->
  (getContentType request st).1 = Normal (Some (a +:+ "json" +:+ b)) ->
  (loadRequestBodyIfNeeded parseJsonBody operationSpec request st).1
  = match parseJsonBody r with
    | Normal parsed => Normal parsed
    | Throw e => Throw (set_statusCode 400 e)
    end
  /\ EvParseJsonBody request
       ∈ added_events st
           (loadRequestBodyIfNeeded parseJsonBody operationSpec request
              st).2.
Proof.
  intros Ho Hr Hbody Hct.
  rewrite (getContentType_run _ _ _ Hr) in Hct. injection Hct as Hct.
  rewrite (loadRequestBodyIfNeeded_run _ _ _ _ _ _ Ho Hr).
  apply hasBodySource_true_iff in Hbody.
  assert (Hok : media_type_refused r = false).
  { unfold media_type_refused. rewrite Hct.
    change (default EmptyString (Some ?x)) with x.
    by rewrite includes_app_json, andb_false_r. }
  unfold load_outcome, load_events, needs_body. rewrite Hbody, Hok.
  cbn [negb fst snd]. split; [done|].
  rewrite (added_events_app st _ [EvRead operationSpec; EvRead request;
                                  EvRead request; EvParseJsonBody request])
    by done.
  rewrite !elem_of_cons. auto.
Qed.

Lemma count_parse_app tr1 tr2 :
  count_parse (tr1 ++ tr2) = count_parse tr1 + count_parse tr2.
Proof.
  induction tr1 as [|[] tr1 IH]; simpl; [done | done | done | done |].
  by rewrite IH.
Qed.

Lemma count_parse_build_events args tr :
  Forall (build_event args) tr -> count_parse tr = 0.
Proof. induction 1 as [|[] tr Hev _ IH]; simpl in *; done. Qed.

Lemma count_parse_load_events operationSpec request op r :
  count_parse (load_events operationSpec request op r) <= 1.
Proof.
  unfold load_events.
  destruct (needs_body op), (media_type_refused r); simpl; lia.
Qed.

(** X8.  [parseOperationArgs] calls the body parser at most once: the
    request stream is never consumed twice, and
    [buildOperationArguments] does not call the parser at all. *)
Theorem parseOperationArgs_parses_at_most_once request route st op r pp :
  inputs_at st (route_spec route) request (route_pathParams route) op r pp ->
  count_parse
    (added_events st
       (parseOperationArgs deserialize parseJsonBody request route st).2)
  <= 1
  /\ forall body,
       count_parse
         (added_events st
            (buildOperationArguments deserialize (route_spec route) request
               (route_pathParams route) body st).2) = 0.
Proof.
  intros Hin. split.
  - rewrite (parseOperationArgs_run _ _ _ _ _ _ _ _ Hin).
    pose proof (count_parse_load_events (route_spec route) request op r)
      as Hev.
    set (ev := load_events _ _ _ _) in *.
    destruct (load_outcome parseJsonBody op r) as [body|e].
    + destruct (buildOperationArguments_footprint deserialize
                  (route_spec route) request (route_pathParams route) body
                  (mkState (heap st) (trace st ++ ev)))
        as (_ & _ & (tr & Etr & Htr) & _).
      cbn [trace] in Etr. rewrite <- app_assoc in Etr.
      rewrite (added_events_app _ _ _ Etr), count_parse_app.
      change (count_parse (EvAlloc ?a :: tr)) with (count_parse tr).
      rewrite (count_parse_build_events _ _ Htr). lia.
    + by rewrite (added_events_app st _ ev).
  - intros body.
    destruct (buildOperationArguments_footprint deserialize
                (route_spec route) request (route_pathParams route) body st)
      as (_ & _ & (tr & Etr & Htr) & _).
    rewrite (added_events_app _ _ _ Etr). simpl.
    apply (count_parse_build_events _ _ Htr).
Qed.

(** X9.  When the content-type header is an array of values, only the
    first one counts: the loader rejects with 415 exactly when the array
    has a first value, that value is not empty and json does not occur
    in it.  An empty array is let through like an absent header. *)
Theorem loadRequestBodyIfNeeded_array_header
    operationSpec request st op r values :
  heap st !! operationSpec = Some (COperation op) ->
  heap st !! request = Some (CRequest r) ->
  Exists from_body (parameters_of op) ->
  req_headers r !! "content-type" = Some (HMulti values) ->
  (exists msg,
     (loadRequestBodyIfNeeded parseJsonBody operationSpec request st).1
     = Throw (UnsupportedMediaType msg))
  <-> exists first others,
        values = first :: others /\ first <> EmptyString
        /\ regex_json_test first = false.
Proof.
  intros Ho Hr Hbody Hhdr.
  rewrite (loadRequestBodyIfNeeded_run _ _ _ _ _ _ Ho Hr).
  apply hasBodySource_true_iff in Hbody.
  unfold load_outcome, needs_body. rewrite Hbody. cbn [negb fst].
  assert (Hct : content_type r = head values)
    by (unfold content_type; by rewrite Hhdr).
  destruct (media_type_refused r) eqn:E.
  - apply media_type_refused_true_iff in E as (ct & Hsome & Hne & Hjson).
    split; [|eauto]. intros _. rewrite Hct in Hsome.
    destruct values as [|first others]; [done|].
    injection Hsome as ->. eauto.
  - apply media_type_refused_false_iff in E. split.
    + intros [msg Hthrow].
      destruct (parseJsonBody r) as [parsed|e]; [done|].
      injection Hthrow as _ _ Hstatus. discriminate Hstatus.
    + intros (first & others & -> & Hne & Hjson). destruct E.
      exists first. by rewrite Hct.
Qed.

Lemma collect_error r pp body params :
  forall acc e,
  (collect deserialize r pp body params acc).1 = Some e ->
  (e = RefNotSupported /\ exists ref, PRef ref ∈ params)
  \/ (exists p, PParam p ∈ params /\ supported_in (param_in p) = false
                /\ e = NotImplemented_in (param_in p))
  \/ (exists p raw, PParam p ∈ params /\ deserialize raw p = Throw e).
Proof.
  induction params as [|[ref|p] rest IH]; intros acc e; cbn [collect fst].
  - done.
  - intros [= <-]. left. split; [done|]. exists ref. by left.
  - destruct (drawn_value r pp body p) as [raw|] eqn:Hraw.
    + destruct (deserialize raw p) as [v|e'] eqn:Hdes.
      * intros H. destruct (IH _ _ H) as [[-> [ref Hin]]|[(q & Hin & ? & ?)
                                          |(q & raw' & Hin & ?)]].
        -- left. split; [done|]. exists ref. by right.
        -- right; left. exists q. split; [by right | done].
        -- right; right. exists q, raw'. split; [by right | done].
      * intros [= <-]. right; right. exists p, raw. split; [by left | done].
    + intros [= <-]. right; left. exists p. split; [by left|].
      split; [|done]. destruct (supported_in (param_in p)) eqn:E; [|done].
      destruct (drawn_value_is_Some r pp body p E) as [raw' Hsome].
      congruence.
Qed.

(** X10.  Every rejection of [parseOperationArgs] is one of five: the
    415 error that names the content type, the error of the body parser
    with its status set to 400, the error that $ref parameters are not
    supported (the spec then has a $ref entry), NotImplemented for a
    parameter whose [in] is outside the five locations, or an error
    thrown by [deserialize] on a parameter of the spec.  It rejects with
    nothing else. *)
Theorem parseOperationArgs_rejections request route st op r pp e :
  inputs_at st (route_spec route) request (route_pathParams route) op r pp ->
  (parseOperationArgs deserialize parseJsonBody request route st).1
  = Throw e ->
  (exists ct, content_type r = Some ct
              /\ e = UnsupportedMediaType
                       ("Content-type " +:+ ct +:+ " is not supported."))
  \/ (exists e0, parseJsonBody r = Throw e0 /\ e = set_statusCode 400 e0)
  \/ (e = RefNotSupported /\ exists ref, PRef ref ∈ parameters_of op)
  \/ (exists p, PParam p ∈ parameters_of op
                /\ supported_in (param_in p) = false
                /\ e = NotImplemented_in (param_in p))
  \/ (exists p raw, PParam p ∈ parameters_of op
                    /\ deserialize raw p = Throw e).
Proof.
  intros Hin Hthrow.
  destruct (load_outcome parseJsonBody op r) as [body|e'] eqn:Hload.
  - destruct (parseOperationArgs_outcome deserialize parseJsonBody _ _ _ _
                _ _ _ Hin Hload) as [H1 _].
    rewrite Hthrow in H1.
    destruct (collect deserialize r pp body (parameters_of op) []).1
      as [e'|] eqn:Hcol; [|discriminate].
    injection H1 as ->. right; right.
    apply (collect_error r pp body _ [] e' Hcol).
  - rewrite (parseOperationArgs_run _ _ _ _ _ _ _ _ Hin), Hload in Hthrow.
    injection Hthrow as <-. unfold load_outcome in Hload.
    destruct (negb (needs_body op)); [discriminate|].
    destruct (media_type_refused r) eqn:E.
    + injection Hload as <-. left.
      apply media_type_refused_true_iff in E as (ct & Hct & _).
      exists ct. by rewrite Hct.
    + right; left. destruct (parseJsonBody r) as [v|e0]; [discriminate|].
      injection Hload as <-. by exists e0.
Qed.

End ParserFurther.

(** ** The further properties at sample inputs *)

Example replace_DIST_documented :
  SelectDist.replace_DIST "dist6" "DIST/test" = "dist6/test".
Proof. reflexivity. Qed.

Example replace_DIST_every_word :
  SelectDist.replace_DIST "dist"
    "DISTX DIST_ xDIST DIST6 -DIST- DIST.DIST"
  = "DISTX DIST_ xDIST DIST6 -dist- dist.dist".
Proof. reflexivity. Qed.

Example replace_DIST_dollar_patterns :
  SelectDist.replace_DIST "[$&|$`|$'|$$|$1|$]" "ab DIST cd"
  = "ab [DIST|ab | cd|$|$1|$] cd".
Proof. reflexivity. Qed.

Example run_documented :
  SelectDist.run _ "dist" sample_runShell
    ["node"; "select-dist"; "mocha"; "DIST/test"] (JBool true)
  = (Some "mocha", ["dist/test"], JBool true).
Proof. reflexivity. Qed.

Lemma parseOperationArgs_without_parameters_sample :
  parseOperationArgs sample_deserialize sample_parseJsonBody 9 sample_route
    (sample_state None (sample_request "text/plain" "[1"))
  = (Normal (fresh (dom (heap (sample_state None
                                 (sample_request "text/plain" "[1"))))),
     mkState
       (<[fresh (dom (heap (sample_state None
                              (sample_request "text/plain" "[1"))))
          := CArgs []]>
          (heap (sample_state None (sample_request "text/plain" "[1"))))
       (trace (sample_state None (sample_request "text/plain" "[1"))
        ++ [EvRead (route_spec sample_route);
            EvAlloc (fresh (dom (heap (sample_state None
                                  (sample_request "text/plain" "[1")))));
            EvRead (route_spec sample_route)])).
Proof.
  exact (parseOperationArgs_without_parameters sample_deserialize
           sample_parseJsonBody 9 sample_route
           (sample_state None (sample_request "text/plain" "[1"))
           (mkOperation None) eq_refl eq_refl).
Defined.

Lemma sample_parameters_rejected_unaccepted :
  Exists (fun ps => accepted ps = false) sample_parameters_rejected.
Proof. apply Exists_app. right. by apply Exists_cons_hd. Defined.

Lemma parseOperationArgs_rejects_unaccepted_sample :
  exists e,
    (parseOperationArgs sample_deserialize sample_parseJsonBody 2
       sample_route
       (sample_state (Some sample_parameters_rejected)
                     (sample_request "application/json" "[1]"))).1
    = Throw e.
Proof.
  exact (parseOperationArgs_rejects_unaccepted sample_deserialize
           sample_parseJsonBody 2 sample_route
           (sample_state (Some sample_parameters_rejected)
                         (sample_request "application/json" "[1]"))
           (mkOperation (Some sample_parameters_rejected))
           (sample_request "application/json" "[1]") sample_pathParams
           (sample_inputs_at _ _) sample_parameters_rejected_unaccepted).
Defined.

Lemma buildOperationArguments_ignores_unloaded_body_sample :
  outcome (buildOperationArguments sample_deserialize 1 2 3 JUndefined
             (sample_state (Some sample_parameters_no_body)
                           (sample_request "text/plain" "[1]")))
  = outcome (buildOperationArguments sample_deserialize 1 2 3
               (JArray [JNumber 1])
               (sample_state (Some sample_parameters_no_body)
                             (sample_request "text/plain" "[1]"))).
Proof.
  exact (buildOperationArguments_ignores_unloaded_body sample_deserialize
           1 2 3
           (sample_state (Some sample_parameters_no_body)
                         (sample_request "text/plain" "[1]"))
           (mkOperation (Some sample_parameters_no_body))
           (sample_request "text/plain" "[1]") sample_pathParams
           JUndefined (JArray [JNumber 1])
           (sample_inputs_at _ _) eq_refl).
Defined.

Lemma loadRequestBodyIfNeeded_json_substring_sample :
  (loadRequestBodyIfNeeded sample_parseJsonBody 1 2
     (sample_state (Some sample_parameters)
        (sample_request "application/vnd.api+json; charset=utf-8" "{}"))).1
  = match sample_parseJsonBody
            (sample_request "application/vnd.api+json; charset=utf-8" "{}")
    with
    | Normal parsed => Normal parsed
    | Throw e => Throw (set_statusCode 400 e)
    end
  /\ EvParseJsonBody 2
       ∈ added_events
           (sample_state (Some sample_parameters)
              (sample_request "application/vnd.api+json; charset=utf-8"
                 "{}"))
           (loadRequestBodyIfNeeded sample_parseJsonBody 1 2
              (sample_state (Some sample_parameters)
                 (sample_request "application/vnd.api+json; charset=utf-8"
                    "{}"))).2.
Proof.
  exact (loadRequestBodyIfNeeded_json_substring sample_parseJsonBody 1 2
           (sample_state (Some sample_parameters)
              (sample_request "application/vnd.api+json; charset=utf-8"
                 "{}"))
           (mkOperation (Some sample_parameters))
           (sample_request "application/vnd.api+json; charset=utf-8" "{}")
           "application/vnd.api+" "; charset=utf-8"
           eq_refl eq_refl sample_parameters_from_body eq_refl).
Defined.

Lemma run_without_DIST_sample :
  SelectDist.run _ "dist6" sample_runShell
    ["node"; "select-dist"; "mocha"; "test/unit"; "--bail"] JUndefined
  = sample_runShell
      (["node"; "select-dist"; "mocha"; "test/unit"; "--bail"] !! 2)
      (drop 3 ["node"; "select-dist"; "mocha"; "test/unit"; "--bail"])
      JUndefined.
Proof.
  apply (run_without_DIST _ "dist6" sample_runShell
           ["node"; "select-dist"; "mocha"; "test/unit"; "--bail"]
           JUndefined).
  repeat constructor.
Defined.

Lemma replace_DIST_whole_word_sample :
  SelectDist.replace_DIST "dist6" ("--out=" +:+ "DIST" +:+ "/lib DIST")
  = SelectDist.replace_DIST "dist6" "--out=" +:+ "dist6"
    +:+ SelectDist.replace_DIST "dist6" "/lib DIST".
Proof.
  exact (replace_DIST_whole_word "dist6" "--out=" "/lib DIST"
           eq_refl eq_refl eq_refl).
Defined.

Lemma replace_DIST_inside_identifier_sample :
  SelectDist.replace_DIST "dist" "DIST6" = "DIST6".
Proof.
  apply (replace_DIST_inside_identifier "dist" "DIST6").
  - reflexivity.
  - discriminate.
Defined.

Lemma parseOperationArgs_parses_at_most_once_sample :
  count_parse
    (added_events
       (sample_state (Some sample_parameters)
                     (sample_request "application/json" "[1]"))
       (parseOperationArgs sample_deserialize sample_parseJsonBody 2
          sample_route
          (sample_state (Some sample_parameters)
                        (sample_request "application/json" "[1]"))).2)
  <= 1
  /\ forall body,
       count_parse
         (added_events
            (sample_state (Some sample_parameters)
                          (sample_request "application/json" "[1]"))
            (buildOperationArguments sample_deserialize
               (route_spec sample_route) 2 (route_pathParams sample_route)
               body
               (sample_state (Some sample_parameters)
                             (sample_request "application/json" "[1]"))).2)
       = 0.
Proof.
  exact (parseOperationArgs_parses_at_most_once sample_deserialize
           sample_parseJsonBody 2 sample_route
           (sample_state (Some sample_parameters)
                         (sample_request "application/json" "[1]"))
           (mkOperation (Some sample_parameters))
           (sample_request "application/json" "[1]") sample_pathParams
           (sample_inputs_at _ _)).
Defined.

Lemma loadRequestBodyIfNeeded_array_header_sample :
  (exists msg,
     (loadRequestBodyIfNeeded sample_parseJsonBody 1 2
        (sample_state (Some sample_parameters)
           (sample_request_values ["text/plain"; "application/json"]
              "[1]"))).1
     = Throw (UnsupportedMediaType msg))
  <-> exists first others,
        ["text/plain"; "application/json"] = first :: others
        /\ first <> EmptyString /\ regex_json_test first = false.
Proof.
  exact (loadRequestBodyIfNeeded_array_header sample_parseJsonBody 1 2
           (sample_state (Some sample_parameters)
              (sample_request_values ["text/plain"; "application/json"]
                 "[1]"))
           (mkOperation (Some sample_parameters))
           (sample_request_values ["text/plain"; "application/json"] "[1]")
           ["text/plain"; "application/json"]
           eq_refl eq_refl sample_parameters_from_body eq_refl).
Defined.

Lemma parseOperationArgs_rejections_sample :
  (exists ct,
     content_type (sample_request "text/plain" "[1]") = Some ct
     /\ UnsupportedMediaType "Content-type text/plain is not supported."
        = UnsupportedMediaType
            ("Content-type " +:+ ct +:+ " is not supported."))
  \/ (exists e0,
        sample_parseJsonBody (sample_request "text/plain" "[1]") = Throw e0
        /\ UnsupportedMediaType "Content-type text/plain is not supported."
           = set_statusCode 400 e0)
  \/ (UnsupportedMediaType "Content-type text/plain is not supported."
      = RefNotSupported
      /\ exists ref,
           PRef ref ∈ parameters_of (mkOperation (Some sample_parameters)))
  \/ (exists p,
        PParam p ∈ parameters_of (mkOperation (Some sample_parameters))
        /\ supported_in (param_in p) = false
        /\ UnsupportedMediaType "Content-type text/plain is not supported."
           = NotImplemented_in (param_in p))
  \/ (exists p raw,
        PParam p ∈ parameters_of (mkOperation (Some sample_parameters))
        /\ sample_deserialize raw p
           = Throw (UnsupportedMediaType
                      "Content-type text/plain is not supported.")).
Proof.
  exact (parseOperationArgs_rejections sample_deserialize
           sample_parseJsonBody 2 sample_route
           (sample_state (Some sample_parameters)
                         (sample_request "text/plain" "[1]"))
           (mkOperation (Some sample_parameters))
           (sample_request "text/plain" "[1]") sample_pathParams
           (UnsupportedMediaType "Content-type text/plain is not supported.")
           (sample_inputs_at _ _) eq_refl).
Defined.
